(** * The [ibm_cd_toolchain_tool_securitycompliance] resource

    A shallow embedding of
    [ibm/service/cdtoolchain/resource_ibm_cd_toolchain_tool_securitycompliance.go]
    and the properties of its four handlers (Create, Read, Update, Delete),
    of its validator table and of its referent converter.

    Conventions of the embedding.
    - A Go [string] is a [string]: a sequence of bytes.
    - A Go pointer to a string ([*string]) is an [option string]; [None] is
      the nil pointer.  Dereferencing nil panics, and so does indexing a
      slice out of range: both are outcomes of the handler monad [M].
    - A Go [map[string]interface{}] is a [gmap string any]; a nil map reads
      as the empty map.
    - A Go call returning [(result, response, err)] is a value of
      [sdk_result]: either [err == nil] with the result, or [err != nil]
      with the response that may be nil.
    - The handlers receive [d *schema.ResourceData] by reference and mutate
      it; [d] is a component of the state threaded by [M], next to the
      remote service behind the SDK client, the record of the SDK calls
      made, and the log.
    - [meta] is the provider's [conns.ClientSession], as the type assertion
      [meta.(conns.ClientSession)] of every handler expects; the
      [context.Context], which the handlers only hand on to the SDK, is left
      out.
    - What the file imports from elsewhere (the SDK client, the Terraform
      plugin framework, the packages [flex] and [validate], and the helpers
      [GetParametersForCreate], [GetParametersFromRead] and
      [GetParametersForUpdate] of package [cdtoolchain]) is gathered in the
      record [Externals]; every theorem about the handlers holds for every
      value of it. *)

From Stdlib Require Import ZArith String Ascii List Lia Bool.
From stdpp Require Import base option list gmap strings.
Import ListNotations.

Set Warnings "-register-all".

Local Open Scope string_scope.

(** ** Go values *)

(** [error] values are carried by their message, as [%s] prints them. *)
Definition error : Type := string.

(** The values of type [interface{}] that flow through [d.Set] and through
    the SDK's parameter maps. *)
Inductive any : Type :=
| ANil
| AString (s : string)
| AStringPtr (p : option string)
| ABool (b : bool)
| AInt (z : Z)
| AList (l : list any)
| AMap (m : gmap string any).

(** The double quote and the line feed, which a string literal cannot hold. *)
Definition dquote : string := String "034"%char EmptyString.
Definition newline : string := String "010"%char EmptyString.

(** ** Diagnostics ([terraform-plugin-sdk/v2/diag]) *)

Inductive Severity : Type := Error | Warning.

Record Diagnostic : Type := mkDiagnostic {
  diag_Severity : Severity;
  diag_Summary : string
}.

(** [diag.Diagnostics]; the handlers return [nil] when nothing went wrong. *)
Definition Diagnostics : Type := list Diagnostic.

(** [diag.FromErr(err)] for a non-nil [err]. *)
Definition diag_FromErr (err : error) : Diagnostics :=
  [ mkDiagnostic Error err ].

Definition HasError (ds : Diagnostics) : bool :=
  existsb (fun x => match diag_Severity x with Error => true | Warning => false end) ds.

(** ** The SDK's models ([continuous-delivery-go-sdk/cdtoolchainv2]) *)

(** [strfmt.DateTime], as milliseconds since the epoch. *)
Definition DateTime : Type := Z.

Module DetailedResponse.
Record t : Type := mk {
  StatusCode : Z;
  RawResult : string
}.
End DetailedResponse.

Module ToolModelReferent.
Record t : Type := mk {
  UIHref : option string;
  APIHref : option string
}.
End ToolModelReferent.

(** The handlers read only [ID] of the model that [CreateTool] returns and
    nothing of the one that [UpdateTool] returns. *)
Module ToolchainToolPost.
Record t : Type := mk { ID : option string }.
End ToolchainToolPost.

Module ToolchainToolPatch.
Record t : Type := mk { ID : option string }.
End ToolchainToolPatch.

Module ToolchainTool.
Record t : Type := mk {
  ID : option string;
  ResourceGroupID : option string;
  CRN : option string;
  ToolTypeID : option string;
  ToolchainID : option string;
  ToolchainCRN : option string;
  Href : option string;
  Referent : option ToolModelReferent.t;
  Name : option string;
  UpdatedAt : option DateTime;
  Parameters : gmap string any;
  State : option string
}.
End ToolchainTool.

Module CreateToolOptions.
Record t : Type := mk {
  ToolchainID : option string;
  ToolTypeID : option string;
  Name : option string;
  Parameters : gmap string any
}.
(** [&cdtoolchainv2.CreateToolOptions{}] *)
Definition zero : t := mk None None None ∅.
Definition SetToolchainID (v : string) (o : t) : t :=
  mk (Some v) (ToolTypeID o) (Name o) (Parameters o).
Definition SetToolTypeID (v : string) (o : t) : t :=
  mk (ToolchainID o) (Some v) (Name o) (Parameters o).
Definition SetName (v : string) (o : t) : t :=
  mk (ToolchainID o) (ToolTypeID o) (Some v) (Parameters o).
Definition SetParameters (v : gmap string any) (o : t) : t :=
  mk (ToolchainID o) (ToolTypeID o) (Name o) v.
End CreateToolOptions.

Module GetToolByIDOptions.
Record t : Type := mk {
  ToolchainID : option string;
  ToolID : option string
}.
Definition zero : t := mk None None.
Definition SetToolchainID (v : string) (o : t) : t := mk (Some v) (ToolID o).
Definition SetToolID (v : string) (o : t) : t := mk (ToolchainID o) (Some v).
End GetToolByIDOptions.

Module ToolchainToolPrototypePatch.
Record t : Type := mk {
  Name : option string;
  ToolTypeID : option string;
  Parameters : gmap string any
}.
(** [&cdtoolchainv2.ToolchainToolPrototypePatch{}] *)
Definition zero : t := mk None None ∅.
Definition withParameters (v : gmap string any) (p : t) : t :=
  mk (Name p) (ToolTypeID p) v.
Definition withName (v : option string) (p : t) : t :=
  mk v (ToolTypeID p) (Parameters p).
End ToolchainToolPrototypePatch.

Module UpdateToolOptions.
Record t : Type := mk {
  ToolchainID : option string;
  ToolID : option string;
  ToolchainToolPrototypePatch : gmap string any
}.
Definition zero : t := mk None None ∅.
Definition SetToolchainID (v : string) (o : t) : t :=
  mk (Some v) (ToolID o) (ToolchainToolPrototypePatch o).
Definition SetToolID (v : string) (o : t) : t :=
  mk (ToolchainID o) (Some v) (ToolchainToolPrototypePatch o).
Definition withPatch (v : gmap string any) (o : t) : t :=
  mk (ToolchainID o) (ToolID o) v.
End UpdateToolOptions.

Module DeleteToolOptions.
Record t : Type := mk {
  ToolchainID : option string;
  ToolID : option string
}.
Definition zero : t := mk None None.
Definition SetToolchainID (v : string) (o : t) : t := mk (Some v) (ToolID o).
Definition SetToolID (v : string) (o : t) : t := mk (ToolchainID o) (Some v).
End DeleteToolOptions.

(** What an SDK call hands back: [(result, response, nil)] or
    [(_, response, err)] with [err != nil], where [response] may be nil. *)
Inductive sdk_result (A : Type) : Type :=
| SdkOk (result : A) (response : DetailedResponse.t)
| SdkErr (response : option DetailedResponse.t) (err : error).
Arguments SdkOk {A} result response.
Arguments SdkErr {A} response err.

(** The four methods of [*cdtoolchainv2.CdToolchainV2] that the file calls.
    Each one acts on the remote service, whose state has type [Remote]. *)
Record CdToolchainV2 (Remote : Type) : Type := mkClient {
  CreateToolWithContext :
    CreateToolOptions.t -> Remote -> sdk_result ToolchainToolPost.t * Remote;
  GetToolByIDWithContext :
    GetToolByIDOptions.t -> Remote -> sdk_result ToolchainTool.t * Remote;
  UpdateToolWithContext :
    UpdateToolOptions.t -> Remote -> sdk_result ToolchainToolPatch.t * Remote;
  DeleteToolWithContext :
    DeleteToolOptions.t -> Remote -> sdk_result unit * Remote
}.
Arguments CreateToolWithContext {Remote} _ _ _.
Arguments GetToolByIDWithContext {Remote} _ _ _.
Arguments UpdateToolWithContext {Remote} _ _ _.
Arguments DeleteToolWithContext {Remote} _ _ _.

(** [conns.ClientSession], of which the handlers use one method:
    [CdToolchainV2()] returns the client or an error. *)
Record ClientSession (Remote : Type) : Type := mkSession {
  session_CdToolchainV2 : error + CdToolchainV2 Remote
}.
Arguments session_CdToolchainV2 {Remote} _.

(** The SDK calls a handler makes, in order, each with its request. *)
Inductive SdkCall : Type :=
| CallCreateTool (opts : CreateToolOptions.t)
| CallGetToolByID (opts : GetToolByIDOptions.t)
| CallUpdateTool (opts : UpdateToolOptions.t)
| CallDeleteTool (opts : DeleteToolOptions.t).

Inductive SdkMethod : Type := CreateTool | GetToolByID | UpdateTool | DeleteTool.

Definition method_of (c : SdkCall) : SdkMethod :=
  match c with
  | CallCreateTool _ => CreateTool
  | CallGetToolByID _ => GetToolByID
  | CallUpdateTool _ => UpdateTool
  | CallDeleteTool _ => DeleteTool
  end.

Definition SdkMethod_eqb (a b : SdkMethod) : bool :=
  match a, b with
  | CreateTool, CreateTool | GetToolByID, GetToolByID
  | UpdateTool, UpdateTool | DeleteTool, DeleteTool => true
  | _, _ => false
  end.

(** How many times method [m] occurs in a record of calls. *)
Fixpoint invocations (m : SdkMethod) (cs : list SdkCall) : nat :=
  match cs with
  | [] => 0
  | c :: rest =>
    (if SdkMethod_eqb (method_of c) m then 1 else 0) + invocations m rest
  end.

(** ** The resource schema (lines 20-156)

    [Description] strings are documentation and are left out.  The four
    handlers that the resource names ([CreateContext], [ReadContext],
    [UpdateContext], [DeleteContext]) are the four definitions further
    down; they take the resource as an argument of the parameter helpers,
    so the record holds the schema only. *)

Inductive ValueType : Type := TypeString | TypeList | TypeMap.

Inductive Schema : Type := mkSchema {
  schema_Type : ValueType;
  schema_Required : bool;
  schema_Optional : bool;
  schema_Computed : bool;
  schema_ForceNew : bool;
  schema_Sensitive : bool;
  schema_MinItems : Z;
  schema_MaxItems : Z;
  (* validate.InvokeValidator(resource, field) *)
  schema_ValidateFunc : option (string * string);
  (* flex.SuppressHashedRawSecret is installed *)
  schema_DiffSuppressFunc : bool;
  (* Elem: &schema.Resource{Schema: ...} *)
  schema_Elem : option (gmap string Schema)
}.

Record Resource : Type := mkResource {
  resource_Schema : gmap string Schema
}.

Definition stringSchema (required optional computed : bool) : Schema :=
  mkSchema TypeString required optional computed false false 0 0 None false None.

Definition parametersElem : gmap string Schema :=
  <["name" := stringSchema true false false]>
  (<["evidence_repo_name" := stringSchema true false false]>
  (<["trigger_scan" := stringSchema false true false]>
  (<["location" := stringSchema false true false]>
  (<["evidence_namespace" := stringSchema false true false]>
  (<["api_key" := mkSchema TypeString false true false false true 0 0 None true None]>
  (<["scope" := stringSchema false true false]>
  (<["profile" := stringSchema false true false]>
  (<["trigger_info" := mkSchema TypeMap false true true false false 0 0 None false None]>
   ∅)))))))).

Definition referentElem : gmap string Schema :=
  <["ui_href" := stringSchema false true false]>
  (<["api_href" := stringSchema false true false]> ∅).

Definition ResourceIBMCdToolchainToolSecuritycompliance : Resource :=
  mkResource
   (<["toolchain_id" :=
        mkSchema TypeString true false false true false 0 0
          (Some ("ibm_cd_toolchain_tool_securitycompliance", "toolchain_id"))
          false None]>
   (<["parameters" :=
        mkSchema TypeList true false false false false 1 1 None false
          (Some parametersElem)]>
   (<["name" :=
        mkSchema TypeString false true false false false 0 0
          (Some ("ibm_cd_toolchain_tool_securitycompliance", "name"))
          false None]>
   (<["resource_group_id" := stringSchema false false true]>
   (<["crn" := stringSchema false false true]>
   (<["toolchain_crn" := stringSchema false false true]>
   (<["href" := stringSchema false false true]>
   (<["referent" :=
        mkSchema TypeList false false true false false 0 0 None false
          (Some referentElem)]>
   (<["updated_at" := stringSchema false false true]>
   (<["state" := stringSchema false false true]>
   (<["tool_id" := stringSchema false false true]>
    ∅))))))))))).

(** ** [schema.ResourceData]

    The part of [d] the handlers touch.
    - [rd_Id]: what [d.Id()] returns and [d.SetId] replaces.
    - [rd_values]: the planned values of the attributes of type string, as
      [d.Get(key).(string)] returns them; a key without a value reads as
      the zero value, the empty string.
    - [rd_parameters]: the planned [parameters] block, which only the
      [GetParametersFor...] helpers read.
    - [rd_changed]: the keys for which [d.HasChange] answers true.
    - [rd_written]: the values stored by [d.Set].
    No handler of this file reads an attribute after having written it, so
    reads and writes are kept apart. *)
Record ResourceData : Type := mkResourceData {
  rd_Id : string;
  rd_values : gmap string string;
  rd_parameters : list (gmap string any);
  rd_changed : gset string;
  rd_written : gmap string any
}.

Definition rd_with_Id (v : string) (d : ResourceData) : ResourceData :=
  mkResourceData v (rd_values d) (rd_parameters d) (rd_changed d) (rd_written d).

Definition rd_write (key : string) (value : any) (d : ResourceData) : ResourceData :=
  mkResourceData (rd_Id d) (rd_values d) (rd_parameters d) (rd_changed d)
    (<[key := value]> (rd_written d)).

(** ** What the file imports *)

Record Externals : Type := mkExternals {
  (* the state of the remote continuous-delivery service *)
  Remote : Type;
  (* package cdtoolchain, outside this file *)
  GetParametersForCreate :
    ResourceData -> Resource -> gmap string string -> gmap string any;
  GetParametersFromRead :
    gmap string any -> Resource -> gmap string string -> gmap string any;
  GetParametersForUpdate :
    ResourceData -> Resource -> gmap string string -> gmap string any;
  (* flex.SepIdParts(id, separator) *)
  SepIdParts : string -> string -> error + list string;
  (* flex.DateTimeToString(dt) *)
  DateTimeToString : option DateTime -> string;
  (* patchVals.AsPatch(); the handler discards its error *)
  AsPatch : ToolchainToolPrototypePatch.t -> gmap string any;
  (* how fmt prints a core.DetailedResponse pointer under %s *)
  DetailedResponse_String : option DetailedResponse.t -> string;
  (* the error, if any, with which d.Set(key, value) refuses a value *)
  Set_error : string -> any -> option error
}.

(** ** The handler monad *)

(** A handler either returns or panics; in both cases it leaves a state. *)
Inductive outcome (A : Type) : Type :=
| Returned (a : A)
| Panicked (why : string).
Arguments Returned {A} a.
Arguments Panicked {A} why.

Section Handlers.

Context (X : Externals).

Record St : Type := mkSt {
  st_d : ResourceData;
  st_remote : Remote X;
  st_calls : list SdkCall;
  st_log : list string
}.

Definition M (A : Type) : Type := St -> outcome A * St.

Definition ret {A : Type} (a : A) : M A := fun s => (Returned a, s).

Definition bind {A B : Type} (m : M A) (k : A -> M B) : M B :=
  fun s =>
    match m s with
    | (Returned a, s') => k a s'
    | (Panicked why, s') => (Panicked why, s')
    end.

Definition panic {A : Type} (why : string) : M A := fun s => (Panicked why, s).

Notation "'let*' x ':=' m 'in' k" := (bind m (fun x => k))
  (at level 10, x name, m at level 100, k at level 200).
Notation "m ';;' k" := (bind m (fun _ => k))
  (at level 100, k at level 200, right associativity).

(** [*p] *)
Definition deref {A : Type} (p : option A) : M A :=
  match p with
  | Some v => ret v
  | None => panic "invalid memory address or nil pointer dereference"
  end.

(** [parts[i]] *)
Definition index (parts : list string) (i : nat) : M string :=
  match parts !! i with
  | Some v => ret v
  | None => panic "index out of range"
  end.

Definition update_d (f : ResourceData -> ResourceData) : M unit :=
  fun s => (Returned tt, mkSt (f (st_d s)) (st_remote s) (st_calls s) (st_log s)).

(** The state of [d], read where the source hands [d] to a helper. *)
Definition the_d : M ResourceData := fun s => (Returned (st_d s), s).

(** [d.Id()] *)
Definition d_Id : M string := fun s => (Returned (rd_Id (st_d s)), s).

(** [d.SetId(v)] *)
Definition d_SetId (v : string) : M unit := update_d (rd_with_Id v).

(** [d.Get(key).(string)] *)
Definition d_Get (key : string) : M string :=
  fun s => (Returned (default "" (rd_values (st_d s) !! key)), s).

(** [d.GetOk(key)]: the value, and whether it is set to a value other than
    the zero value of its type. *)
Definition d_GetOk (key : string) : M (string * bool) :=
  fun s =>
    let v := default "" (rd_values (st_d s) !! key) in
    (Returned (v, negb (String.eqb v "")), s).

(** [d.HasChange(key)] *)
Definition d_HasChange (key : string) : M bool :=
  fun s => (Returned (bool_decide (key ∈ rd_changed (st_d s))), s).

(** [d.Set(key, value)]: stores the value, or refuses it with an error. *)
Definition d_Set (key : string) (value : any) : M (option error) :=
  match Set_error X key value with
  | Some err => ret (Some err)
  | None => update_d (rd_write key value) ;; ret None
  end.

(** [log.Printf(...)] *)
Definition log_Printf (line : string) : M unit :=
  fun s => (Returned tt, mkSt (st_d s) (st_remote s) (st_calls s) (st_log s ++ [line])).

(** An SDK method is run against the remote service and recorded. *)
Definition invoke {A : Type} (c : SdkCall)
    (f : Remote X -> sdk_result A * Remote X) : M (sdk_result A) :=
  fun s =>
    let (r, remote') := f (st_remote s) in
    (Returned r, mkSt (st_d s) remote' (st_calls s ++ [c]) (st_log s)).

Definition client_CreateTool (c : CdToolchainV2 (Remote X)) (o : CreateToolOptions.t) :=
  invoke (CallCreateTool o) (CreateToolWithContext c o).
Definition client_GetToolByID (c : CdToolchainV2 (Remote X)) (o : GetToolByIDOptions.t) :=
  invoke (CallGetToolByID o) (GetToolByIDWithContext c o).
Definition client_UpdateTool (c : CdToolchainV2 (Remote X)) (o : UpdateToolOptions.t) :=
  invoke (CallUpdateTool o) (UpdateToolWithContext c o).
Definition client_DeleteTool (c : CdToolchainV2 (Remote X)) (o : DeleteToolOptions.t) :=
  invoke (CallDeleteTool o) (DeleteToolWithContext c o).

(** [fmt.Sprintf("<what> failed %s\n%s", err, response)] *)
Definition failed (what : string) (err : error)
    (response : option DetailedResponse.t) : string :=
  what +:+ " failed " +:+ err +:+ newline +:+ DetailedResponse_String X response.

(** [map[string]string{"api_key": "api-key"}] *)
Definition remapFields : gmap string string := {[ "api_key" := "api-key" ]}.

(** ** The referent converter (lines 362-371) *)

Definition resourceIBMCdToolchainToolSecuritycomplianceToolModelReferentToMap
    (model : option ToolModelReferent.t) : M (gmap string any * option error) :=
  let modelMap : gmap string any := ∅ in
  let* m := deref model in
  let modelMap :=
    match ToolModelReferent.UIHref m with
    | Some _ => <["ui_href" := AStringPtr (ToolModelReferent.UIHref m)]> modelMap
    | None => modelMap
    end in
  let modelMap :=
    match ToolModelReferent.APIHref m with
    | Some _ => <["api_href" := AStringPtr (ToolModelReferent.APIHref m)]> modelMap
    | None => modelMap
    end in
  ret (modelMap, None).

(** ** Read (lines 215-284) *)

(** [response != nil && response.StatusCode == 404] *)
Definition is_not_found (response : option DetailedResponse.t) : bool :=
  match response with
  | Some r => (DetailedResponse.StatusCode r =? 404)%Z
  | None => false
  end.

(** [if err = d.Set(key, value); err != nil { return diag.FromErr(
    fmt.Errorf("Error setting <key>: %s", err)) }], followed by [rest]. *)
Definition set_or_return (key : string) (value : any)
    (rest : M Diagnostics) : M Diagnostics :=
  let* err := d_Set key value in
  match err with
  | Some e => ret (diag_FromErr ("Error setting " +:+ key +:+ ": " +:+ e))
  | None => rest
  end.

(** Lines 241-283: the response of [GetToolByID] is copied into [d]. *)
Definition Read_setFields (toolchainTool : ToolchainTool.t) : M Diagnostics :=
  set_or_return "toolchain_id" (AStringPtr (ToolchainTool.ToolchainID toolchainTool)) (
  let parametersMap :=
    GetParametersFromRead X (ToolchainTool.Parameters toolchainTool)
      ResourceIBMCdToolchainToolSecuritycompliance remapFields in
  set_or_return "parameters" (AList [AMap parametersMap]) (
  set_or_return "name" (AStringPtr (ToolchainTool.Name toolchainTool)) (
  set_or_return "resource_group_id" (AStringPtr (ToolchainTool.ResourceGroupID toolchainTool)) (
  set_or_return "crn" (AStringPtr (ToolchainTool.CRN toolchainTool)) (
  set_or_return "toolchain_crn" (AStringPtr (ToolchainTool.ToolchainCRN toolchainTool)) (
  set_or_return "href" (AStringPtr (ToolchainTool.Href toolchainTool)) (
  let* converted :=
    resourceIBMCdToolchainToolSecuritycomplianceToolModelReferentToMap
      (ToolchainTool.Referent toolchainTool) in
  match converted with
  | (_, Some err) => ret (diag_FromErr err)
  | (referentMap, None) =>
  set_or_return "referent" (AList [AMap referentMap]) (
  set_or_return "updated_at"
    (AString (DateTimeToString X (ToolchainTool.UpdatedAt toolchainTool))) (
  set_or_return "state" (AStringPtr (ToolchainTool.State toolchainTool)) (
  set_or_return "tool_id" (AStringPtr (ToolchainTool.ID toolchainTool)) (
  ret []))))
  end))))))).

Definition resourceIBMCdToolchainToolSecuritycomplianceRead
    (meta : ClientSession (Remote X)) : M Diagnostics :=
  match session_CdToolchainV2 meta with
  | inl err => ret (diag_FromErr err)
  | inr cdToolchainClient =>
    let getToolByIDOptions := GetToolByIDOptions.zero in
    let* id := d_Id in
    match SepIdParts X id "/" with
    | inl err => ret (diag_FromErr err)
    | inr parts =>
      let* part0 := index parts 0 in
      let getToolByIDOptions := GetToolByIDOptions.SetToolchainID part0 getToolByIDOptions in
      let* part1 := index parts 1 in
      let getToolByIDOptions := GetToolByIDOptions.SetToolID part1 getToolByIDOptions in
      let* called := client_GetToolByID cdToolchainClient getToolByIDOptions in
      match called with
      | SdkErr response err =>
        if is_not_found response
        then d_SetId "" ;; ret []
        else
          log_Printf ("[DEBUG] " +:+ failed "GetToolByIDWithContext" err response) ;;
          ret (diag_FromErr (failed "GetToolByIDWithContext" err response))
      | SdkOk toolchainTool _ => Read_setFields toolchainTool
      end
    end
  end.

(** ** Create (lines 185-213) *)

(** Lines 191-202: the request is built from [d]. *)
Definition Create_options : M CreateToolOptions.t :=
  let createToolOptions := CreateToolOptions.zero in
  let* toolchain_id := d_Get "toolchain_id" in
  let createToolOptions := CreateToolOptions.SetToolchainID toolchain_id createToolOptions in
  let createToolOptions := CreateToolOptions.SetToolTypeID "security_compliance" createToolOptions in
  let* d := the_d in
  let parametersModel :=
    GetParametersForCreate X d ResourceIBMCdToolchainToolSecuritycompliance remapFields in
  let createToolOptions := CreateToolOptions.SetParameters parametersModel createToolOptions in
  let* got := d_GetOk "name" in
  if snd got
  then
    let* name := d_Get "name" in
    ret (CreateToolOptions.SetName name createToolOptions)
  else ret createToolOptions.

Definition resourceIBMCdToolchainToolSecuritycomplianceCreate
    (meta : ClientSession (Remote X)) : M Diagnostics :=
  match session_CdToolchainV2 meta with
  | inl err => ret (diag_FromErr err)
  | inr cdToolchainClient =>
    let* createToolOptions := Create_options in
    let* called := client_CreateTool cdToolchainClient createToolOptions in
    match called with
    | SdkErr response err =>
      log_Printf ("[DEBUG] " +:+ failed "CreateToolWithContext" err response) ;;
      ret (diag_FromErr (failed "CreateToolWithContext" err response))
    | SdkOk toolchainToolPost _ =>
      let* toolchainID := deref (CreateToolOptions.ToolchainID createToolOptions) in
      let* toolID := deref (ToolchainToolPost.ID toolchainToolPost) in
      d_SetId (toolchainID +:+ "/" +:+ toolID) ;;
      resourceIBMCdToolchainToolSecuritycomplianceRead meta
    end
  end.

(** ** Update (lines 286-333) *)

(** The text of the error for a changed [toolchain_id] (lines 306-307). *)
Definition forceNewError (property : string) : error :=
  "Cannot update resource property " +:+ dquote +:+ property +:+ dquote +:+
  " with the ForceNew annotation." +:+
  " The resource must be re-created to update this property.".

Definition resourceIBMCdToolchainToolSecuritycomplianceUpdate
    (meta : ClientSession (Remote X)) : M Diagnostics :=
  match session_CdToolchainV2 meta with
  | inl err => ret (diag_FromErr err)
  | inr cdToolchainClient =>
    let updateToolOptions := UpdateToolOptions.zero in
    let* id := d_Id in
    match SepIdParts X id "/" with
    | inl err => ret (diag_FromErr err)
    | inr parts =>
      let* part0 := index parts 0 in
      let updateToolOptions := UpdateToolOptions.SetToolchainID part0 updateToolOptions in
      let* part1 := index parts 1 in
      let updateToolOptions := UpdateToolOptions.SetToolID part1 updateToolOptions in
      let hasChange := false in
      let patchVals := ToolchainToolPrototypePatch.zero in
      let* changedToolchainID := d_HasChange "toolchain_id" in
      if changedToolchainID
      then ret (diag_FromErr (forceNewError "toolchain_id"))
      else
        let* changedParameters := d_HasChange "parameters" in
        let* afterParameters :=
          if changedParameters
          then
            let* d := the_d in
            let parameters :=
              GetParametersForUpdate X d
                ResourceIBMCdToolchainToolSecuritycompliance remapFields in
            ret (ToolchainToolPrototypePatch.withParameters parameters patchVals, true)
          else ret (patchVals, hasChange) in
        let patchVals := fst afterParameters in
        let hasChange := snd afterParameters in
        let* changedName := d_HasChange "name" in
        let* afterName :=
          if changedName
          then
            let* newName := d_Get "name" in
            ret (ToolchainToolPrototypePatch.withName (Some newName) patchVals, true)
          else ret (patchVals, hasChange) in
        let patchVals := fst afterName in
        let hasChange := snd afterName in
        if hasChange
        then
          let updateToolOptions :=
            UpdateToolOptions.withPatch (AsPatch X patchVals) updateToolOptions in
          let* called := client_UpdateTool cdToolchainClient updateToolOptions in
          match called with
          | SdkErr response err =>
            log_Printf ("[DEBUG] " +:+ failed "UpdateToolWithContext" err response) ;;
            ret (diag_FromErr (failed "UpdateToolWithContext" err response))
          | SdkOk _ _ => resourceIBMCdToolchainToolSecuritycomplianceRead meta
          end
        else resourceIBMCdToolchainToolSecuritycomplianceRead meta
    end
  end.

(** ** Delete (lines 335-360) *)

Definition resourceIBMCdToolchainToolSecuritycomplianceDelete
    (meta : ClientSession (Remote X)) : M Diagnostics :=
  match session_CdToolchainV2 meta with
  | inl err => ret (diag_FromErr err)
  | inr cdToolchainClient =>
    let deleteToolOptions := DeleteToolOptions.zero in
    let* id := d_Id in
    match SepIdParts X id "/" with
    | inl err => ret (diag_FromErr err)
    | inr parts =>
      let* part0 := index parts 0 in
      let deleteToolOptions := DeleteToolOptions.SetToolchainID part0 deleteToolOptions in
      let* part1 := index parts 1 in
      let deleteToolOptions := DeleteToolOptions.SetToolID part1 deleteToolOptions in
      let* called := client_DeleteTool cdToolchainClient deleteToolOptions in
      match called with
      | SdkErr response err =>
        log_Printf ("[DEBUG] " +:+ failed "DeleteToolWithContext" err response) ;;
        ret (diag_FromErr (failed "DeleteToolWithContext" err response))
      | SdkOk _ _ => d_SetId "" ;; ret []
      end
    end
  end.

End Handlers.

Arguments mkSt {X} _ _ _ _.
Arguments st_d {X} _.
Arguments st_remote {X} _.
Arguments st_calls {X} _.
Arguments st_log {X} _.
Arguments ret {X A} _ _.
Arguments bind {X A B} _ _ _.
Arguments panic {X A} _ _.
Arguments deref {X A} _ _.
Arguments index {X} _ _ _.
Arguments update_d {X} _ _.
Arguments the_d {X} _.
Arguments d_Id {X} _.
Arguments d_SetId {X} _ _.
Arguments d_Get {X} _ _.
Arguments d_GetOk {X} _ _.
Arguments d_HasChange {X} _ _.
Arguments d_Set {X} _ _ _.
Arguments log_Printf {X} _ _.
Arguments invoke {X A} _ _ _.
Arguments set_or_return {X} _ _ _ _.
Arguments resourceIBMCdToolchainToolSecuritycomplianceToolModelReferentToMap {X} _ _.
Arguments Read_setFields {X} _ _.
Arguments Create_options {X} _.
Arguments resourceIBMCdToolchainToolSecuritycomplianceRead {X} _ _.
Arguments resourceIBMCdToolchainToolSecuritycomplianceCreate {X} _ _.
Arguments resourceIBMCdToolchainToolSecuritycomplianceUpdate {X} _ _.
Arguments resourceIBMCdToolchainToolSecuritycomplianceDelete {X} _ _.

(** * The validator table (lines 158-183) *)

(** [validate.ValidateFunctionIdentifier] and [validate.ValueType]; the
    table of this file uses one value of each.  The function that
    [ValidateRegexpLen] names belongs to package [validate]; what follows
    reads the table and its patterns, not that function. *)
Inductive ValidateFunctionIdentifier : Type := ValidateRegexpLen.
Inductive ValidateValueType : Type := ValidateTypeString.

Record ValidateSchema : Type := mkValidateSchema {
  vs_Identifier : string;
  vs_ValidateFunctionIdentifier : ValidateFunctionIdentifier;
  vs_Type : ValidateValueType;
  vs_Required : bool;
  vs_Optional : bool;
  vs_Regexp : string;
  vs_MinValueLength : Z;
  vs_MaxValueLength : Z
}.

Record ResourceValidator : Type := mkResourceValidator {
  rv_ResourceName : string;
  rv_Schema : list ValidateSchema
}.

Definition ResourceIBMCdToolchainToolSecuritycomplianceValidator : ResourceValidator :=
  let validateSchema : list ValidateSchema := [] in
  let validateSchema :=
    (validateSchema ++
     [ mkValidateSchema "toolchain_id" ValidateRegexpLen ValidateTypeString true false
         "^[a-fA-F0-9]{8}-[a-fA-F0-9]{4}-4[a-fA-F0-9]{3}-[89abAB][a-fA-F0-9]{3}-[a-fA-F0-9]{12}$"
         36 36;
       mkValidateSchema "name" ValidateRegexpLen ValidateTypeString false true
         "^([^\x00-\x7F]|[a-zA-Z0-9-._ ])+$"
         0 128 ])%list in
  mkResourceValidator "ibm_cd_toolchain_tool_securitycompliance" validateSchema.

(** ** Regular expressions

    The fragment of Go's [regexp] syntax that the two patterns use:
    literals, [\xHH] escapes, classes with ranges and negation, groups,
    alternation, and the repetitions [*], [+], [?] and [{n}], between the
    anchors [^] and [$].  Matching is by bytes and a class is a set of
    bytes.  A character that is not ASCII is encoded by bytes from 0x80 up,
    and a byte from 0x80 up is read as (part of) such a character, so for
    the patterns of this file matching by bytes accepts the same strings as
    matching by characters. *)

Inductive class_item : Type :=
| CChar (c : ascii)
| CRange (lo hi : ascii).

Inductive regexp : Type :=
| REmpty
| RChar (c : ascii)
| RClass (negated : bool) (items : list class_item)
| RSeq (r1 r2 : regexp)
| RAlt (r1 r2 : regexp)
| RStar (r : regexp)
| RPlus (r : regexp)
| ROpt (r : regexp)
| RRepeat (n : nat) (r : regexp).

Definition is_char (a : ascii) (c : ascii) : bool := Ascii.eqb a c.

Definition between (lo hi : ascii) (c : ascii) : bool :=
  (N_of_ascii lo <=? N_of_ascii c)%N && (N_of_ascii c <=? N_of_ascii hi)%N.

Definition in_item (c : ascii) (item : class_item) : bool :=
  match item with
  | CChar a => is_char a c
  | CRange lo hi => between lo hi c
  end.

Definition in_class (negated : bool) (items : list class_item) (c : ascii) : bool :=
  xorb negated (existsb (in_item c) items).

(** *** Parsing *)

Definition hex_digit (c : ascii) : option N :=
  let n := N_of_ascii c in
  if between "0" "9" c then Some (n - 48)%N
  else if between "a" "f" c then Some (n - 87)%N
  else if between "A" "F" c then Some (n - 55)%N
  else None.

Definition dec_digit (c : ascii) : option nat :=
  if between "0" "9" c then Some (N.to_nat (N_of_ascii c - 48)) else None.

(** The characters with a meaning of their own outside a class. *)
Definition is_meta (c : ascii) : bool :=
  existsb (is_char c)
    [ "("; ")"; "["; "]"; "{"; "}"; "*"; "+"; "?"; "|"; "^"; "$"; "."; "\" ]%char.

Definition is_punct (c : ascii) : bool :=
  negb (between "0" "9" c || between "a" "z" c || between "A" "Z" c)
  && between " " "~" c.

(** After a backslash: [xHH], or a punctuation character for itself. *)
Definition parse_escape (s : string) : option (ascii * string) :=
  match s with
  | String "x" (String h1 (String h2 rest)) =>
    match hex_digit h1, hex_digit h2 with
    | Some a, Some b => Some (ascii_of_N (16 * a + b), rest)
    | _, _ => None
    end
  | String c rest => if is_punct c then Some (c, rest) else None
  | EmptyString => None
  end.

(** One character of a class. *)
Definition parse_class_char (s : string) : option (ascii * string) :=
  match s with
  | String "\" rest => parse_escape rest
  | String c rest => Some (c, rest)
  | EmptyString => None
  end.

(** The items of a class up to the closing bracket.  A [-] makes a range
    when a character other than the bracket follows it. *)
Fixpoint parse_class_items (fuel : nat) (s : string) : option (list class_item * string) :=
  match fuel with
  | O => None
  | S fuel =>
    match s with
    | String "]" rest => Some ([], rest)
    | _ =>
      match parse_class_char s with
      | None => None
      | Some (lo, after_lo) =>
        let range_end :=
          match after_lo with
          | String "-" (String next after_dash) =>
            if is_char "]" next then None else Some (String next after_dash)
          | _ => None
          end in
        match range_end with
        | None =>
          match parse_class_items fuel after_lo with
          | Some (items, rest) => Some (CChar lo :: items, rest)
          | None => None
          end
        | Some from_hi =>
          match parse_class_char from_hi with
          | None => None
          | Some (hi, after_hi) =>
            if (N_of_ascii hi <? N_of_ascii lo)%N then None
            else
              match parse_class_items fuel after_hi with
              | Some (items, rest) => Some (CRange lo hi :: items, rest)
              | None => None
              end
          end
        end
      end
    end
  end.

Definition parse_class (s : string) : option (regexp * string) :=
  let negated := match s with String "^" _ => true | _ => false end in
  let body := match s with String "^" rest => rest | _ => s end in
  match parse_class_items (S (String.length body)) body with
  | Some (items, rest) => Some (RClass negated items, rest)
  | None => None
  end.

Fixpoint parse_number (fuel : nat) (acc : nat) (s : string) : nat * string :=
  match fuel with
  | O => (acc, s)
  | S fuel =>
    match s with
    | String c rest =>
      match dec_digit c with
      | Some d => parse_number fuel (10 * acc + d) rest
      | None => (acc, s)
      end
    | EmptyString => (acc, s)
    end
  end.

(** The repetition, if any, that follows an atom. *)
Definition parse_repetition (r : regexp) (s : string) : option (regexp * string) :=
  match s with
  | String "*" rest => Some (RStar r, rest)
  | String "+" rest => Some (RPlus r, rest)
  | String "?" rest => Some (ROpt r, rest)
  | String "{" (String c rest) =>
    match dec_digit c with
    | None => None
    | Some _ =>
      match parse_number (S (String.length rest)) 0 (String c rest) with
      | (n, String "}" rest') => Some (RRepeat n r, rest')
      | _ => None
      end
    end
  | _ => Some (r, s)
  end.

Definition seq (r1 r2 : regexp) : regexp :=
  match r2 with
  | REmpty => r1
  | _ => RSeq r1 r2
  end.

(** An alternation: sequences separated by [|], up to a closing
    parenthesis or the end. *)
Fixpoint parse_alternation (fuel : nat) (s : string) : option (regexp * string) :=
  match fuel with
  | O => None
  | S fuel =>
    let parse_atom (s : string) : option (regexp * string) :=
      match s with
      | String "(" rest =>
        match parse_alternation fuel rest with
        | Some (r, String ")" rest') => Some (r, rest')
        | _ => None
        end
      | String "[" rest => parse_class rest
      | String "\" rest =>
        match parse_escape rest with
        | Some (c, rest') => Some (RChar c, rest')
        | None => None
        end
      | String c rest => if is_meta c then None else Some (RChar c, rest)
      | EmptyString => None
      end in
    let fix parse_sequence (n : nat) (s : string) : option (regexp * string) :=
      match n with
      | O => None
      | S n =>
        match s with
        | EmptyString => Some (REmpty, s)
        | String "|" _ => Some (REmpty, s)
        | String ")" _ => Some (REmpty, s)
        | _ =>
          match parse_atom s with
          | None => None
          | Some (atom, after_atom) =>
            match parse_repetition atom after_atom with
            | None => None
            | Some (r1, after_r1) =>
              match parse_sequence n after_r1 with
              | Some (r2, rest) => Some (seq r1 r2, rest)
              | None => None
              end
            end
          end
        end
      end in
    match parse_sequence (S (String.length s)) s with
    | Some (r1, String "|" rest) =>
      match parse_alternation fuel rest with
      | Some (r2, rest') => Some (RAlt r1 r2, rest')
      | None => None
      end
    | other => other
    end
  end.

Fixpoint strip_dollar (s : string) : option string :=
  match s with
  | EmptyString => None
  | String "$" EmptyString => Some EmptyString
  | String c rest =>
    match strip_dollar rest with
    | Some body => Some (String c body)
    | None => None
    end
  end.

(** A pattern of the form [^body$]; the anchors make it match whole
    strings.  Patterns outside the fragment are not parsed. *)
Definition parse_regexp (pattern : string) : option regexp :=
  match pattern with
  | String "^" anchored =>
    match strip_dollar anchored with
    | Some body =>
      match parse_alternation (S (String.length body)) body with
      | Some (r, EmptyString) => Some r
      | _ => None
      end
    | None => None
    end
  | _ => None
  end.

(** *** Matching, by backtracking with a continuation *)

Fixpoint repeat_match (n : nat) (m : string -> (string -> bool) -> bool)
    (s : string) (k : string -> bool) : bool :=
  match n with
  | O => k s
  | S n => m s (fun rest => repeat_match n m rest k)
  end.

(** Zero or more times; an iteration that consumes nothing is not taken. *)
Fixpoint star_match (fuel : nat) (m : string -> (string -> bool) -> bool)
    (s : string) (k : string -> bool) : bool :=
  if k s then true
  else
    match fuel with
    | O => false
    | S fuel =>
      m s (fun rest =>
             if (String.length rest <? String.length s)%nat
             then star_match fuel m rest k
             else false)
    end.

Definition one_char (p : ascii -> bool) (s : string) (k : string -> bool) : bool :=
  match s with
  | String c rest => if p c then k rest else false
  | EmptyString => false
  end.

Fixpoint rmatch (r : regexp) (s : string) (k : string -> bool) : bool :=
  match r with
  | REmpty => k s
  | RChar c => one_char (is_char c) s k
  | RClass negated items => one_char (in_class negated items) s k
  | RSeq r1 r2 => rmatch r1 s (fun rest => rmatch r2 rest k)
  | RAlt r1 r2 => if rmatch r1 s k then true else rmatch r2 s k
  | RStar r => star_match (String.length s) (rmatch r) s k
  | RPlus r =>
    rmatch r s (fun rest => star_match (String.length rest) (rmatch r) rest k)
  | ROpt r => if rmatch r s k then true else k s
  | RRepeat n r => repeat_match n (rmatch r) s k
  end.

Definition at_end (s : string) : bool :=
  match s with
  | EmptyString => true
  | String _ _ => false
  end.

(** [regexp.MatchString(pattern, value)]; a pattern that does not compile
    matches nothing. *)
Definition MatchString (pattern value : string) : bool :=
  match parse_regexp pattern with
  | Some r => rmatch r value at_end
  | None => false
  end.

(** ** The two patterns, position by position *)

Definition is_hex (c : ascii) : bool :=
  between "a" "f" c || between "A" "F" c || between "0" "9" c.

Definition is_variant (c : ascii) : bool :=
  existsb (is_char c) [ "8"; "9"; "a"; "b"; "A"; "B" ]%char.

(** Position by position: 8-4-4-4-12 hexadecimal digits between hyphens,
    with [4] to open the third group and one of [89abAB] the fourth. *)
Definition uuid_v4_positions : list (ascii -> bool) :=
  (repeat is_hex 8 ++ [ is_char "-" ] ++
   repeat is_hex 4 ++ [ is_char "-"; is_char "4" ] ++
   repeat is_hex 3 ++ [ is_char "-"; is_variant ] ++
   repeat is_hex 3 ++ [ is_char "-" ] ++
   repeat is_hex 12)%list.

(** A string with one character per position, each as its position asks. *)
Fixpoint conforms (positions : list (ascii -> bool)) (s : string) : bool :=
  match positions, s with
  | [], EmptyString => true
  | p :: positions, String c rest => p c && conforms positions rest
  | _, _ => false
  end.

Definition is_uuid_v4 (value : string) : bool := conforms uuid_v4_positions value.

(** Not ASCII, or one of [a-zA-Z0-9-._ ]. *)
Definition name_char (c : ascii) : bool :=
  (128 <=? N_of_ascii c)%N ||
  between "a" "z" c || between "A" "Z" c || between "0" "9" c ||
  existsb (is_char c) [ "-"; "."; "_"; " " ]%char.

Fixpoint all_chars (p : ascii -> bool) (s : string) : bool :=
  match s with
  | EmptyString => true
  | String c rest => p c && all_chars p rest
  end.

(** The strings of one character per position, the way [rmatch] consumes
    them: with a continuation for what follows. *)
Fixpoint conforms_then (positions : list (ascii -> bool)) (s : string)
    (k : string -> bool) : bool :=
  match positions with
  | [] => k s
  | p :: positions => one_char p s (fun rest => conforms_then positions rest k)
  end.

(** The positions of a pattern made of single characters, classes,
    sequences and counted repetitions only. *)
Fixpoint positions_of (r : regexp) : option (list (ascii -> bool)) :=
  match r with
  | REmpty => Some []
  | RChar c => Some [ is_char c ]
  | RClass negated items => Some [ in_class negated items ]
  | RSeq r1 r2 =>
    match positions_of r1, positions_of r2 with
    | Some p1, Some p2 => Some (p1 ++ p2)%list
    | _, _ => None
    end
  | RRepeat n r =>
    match positions_of r with
    | Some p => Some (concat (repeat p n))
    | None => None
    end
  | RAlt _ _ | RStar _ | RPlus _ | ROpt _ => None
  end.

(** The two patterns, parsed. *)
Definition hex_class : regexp :=
  RClass false [ CRange "a" "f"; CRange "A" "F"; CRange "0" "9" ].

Definition uuid_v4_regexp : regexp :=
  RSeq (RRepeat 8 hex_class) (RSeq (RChar "-")
  (RSeq (RRepeat 4 hex_class) (RSeq (RChar "-") (RSeq (RChar "4")
  (RSeq (RRepeat 3 hex_class) (RSeq (RChar "-")
  (RSeq (RClass false [ CChar "8"; CChar "9"; CChar "a"; CChar "b"; CChar "A"; CChar "B" ])
  (RSeq (RRepeat 3 hex_class) (RSeq (RChar "-")
  (RRepeat 12 hex_class)))))))))).

Definition name_regexp : regexp :=
  RPlus (RAlt (RClass true [ CRange "000" "127" ])
              (RClass false [ CRange "a" "z"; CRange "A" "Z"; CRange "0" "9";
                              CChar "-"; CChar "."; CChar "_"; CChar " " ])).

(** * Vocabulary of the statements *)

Section Vocabulary.

Context (X : Externals).

(** The state after a change of [d] alone. *)
Definition with_d (f : ResourceData -> ResourceData) (s : St X) : St X :=
  mkSt (f (st_d s)) (st_remote s) (st_calls s) (st_log s).

(** The state after one SDK call that left the service in [remote']. *)
Definition after_call (c : SdkCall) (remote' : Remote X) (s : St X) : St X :=
  mkSt (st_d s) remote' (st_calls s ++ [c]) (st_log s).

(** The state after one line of log. *)
Definition after_log (line : string) (s : St X) : St X :=
  mkSt (st_d s) (st_remote s) (st_calls s) (st_log s ++ [line]).

(** A sequence of [d.Set] writes, applied in order. *)
Definition write_all (writes : list (string * any)) (d : ResourceData) : ResourceData :=
  foldl (fun acc kv => rd_write (fst kv) (snd kv) acc) d writes.

(** What the referent map holds under the key of a field. *)
Definition referent_entry (field : option string) : option any :=
  match field with
  | Some _ => Some (AStringPtr field)
  | None => None
  end.

Definition referent_keys (key : string) (field : option string) : gset string :=
  match field with
  | Some _ => {[ key ]}
  | None => ∅
  end.

(** The map of a referent, written from the description of the converter:
    one entry per field that is not nil. *)
Definition referent_map (model : ToolModelReferent.t) : gmap string any :=
  from_option (fun _ => {[ "ui_href" := AStringPtr (ToolModelReferent.UIHref model) ]}) ∅
    (ToolModelReferent.UIHref model)
  ∪
  from_option (fun _ => {[ "api_href" := AStringPtr (ToolModelReferent.APIHref model) ]}) ∅
    (ToolModelReferent.APIHref model).

(** The eleven attributes that mirror a remote tool, with their values, in
    the order of the description of Read. *)
Definition mirrored_fields (tool : ToolchainTool.t)
    (referent : ToolModelReferent.t) : list (string * any) :=
  [ ("toolchain_id", AStringPtr (ToolchainTool.ToolchainID tool));
    ("parameters",
       AList [AMap (GetParametersFromRead X (ToolchainTool.Parameters tool)
                      ResourceIBMCdToolchainToolSecuritycompliance
                      {[ "api_key" := "api-key" ]})]);
    ("name", AStringPtr (ToolchainTool.Name tool));
    ("resource_group_id", AStringPtr (ToolchainTool.ResourceGroupID tool));
    ("crn", AStringPtr (ToolchainTool.CRN tool));
    ("toolchain_crn", AStringPtr (ToolchainTool.ToolchainCRN tool));
    ("href", AStringPtr (ToolchainTool.Href tool));
    ("referent", AList [AMap (referent_map referent)]);
    ("updated_at", AString (DateTimeToString X (ToolchainTool.UpdatedAt tool)));
    ("state", AStringPtr (ToolchainTool.State tool));
    ("tool_id", AStringPtr (ToolchainTool.ID tool)) ].

(** The assignments of a list of fields, one after the other, stopping at
    the first one that [d.Set] refuses. *)
Fixpoint set_all (fields : list (string * any)) : M X Diagnostics :=
  match fields with
  | [] => ret []
  | (key, value) :: rest => set_or_return key value (set_all rest)
  end.

(** The first field of a list that [d.Set] refuses, with the error. *)
Fixpoint first_refused (fields : list (string * any)) : option (string * error) :=
  match fields with
  | [] => None
  | (key, value) :: rest =>
    match Set_error X key value with
    | Some e => Some (key, e)
    | None => first_refused rest
    end
  end.

(** The fields of a list before the first one that [d.Set] refuses. *)
Fixpoint accepted (fields : list (string * any)) : list (string * any) :=
  match fields with
  | [] => []
  | (key, value) :: rest =>
    match Set_error X key value with
    | Some _ => []
    | None => (key, value) :: accepted rest
    end
  end.

(** The request that Create sends, written from its description. *)
Definition expected_CreateToolOptions (d : ResourceData) : CreateToolOptions.t :=
  CreateToolOptions.mk
    (Some (default "" (rd_values d !! "toolchain_id")))
    (Some "security_compliance")
    (match rd_values d !! "name" with
     | Some name => if String.eqb name "" then None else Some name
     | None => None
     end)
    (GetParametersForCreate X d ResourceIBMCdToolchainToolSecuritycompliance
       {[ "api_key" := "api-key" ]}).

(** The patch that Update sends, written from its description: the new
    parameters when [parameters] changed, the new name when [name] did. *)
Definition expected_patch (d : ResourceData) : ToolchainToolPrototypePatch.t :=
  ToolchainToolPrototypePatch.mk
    (if bool_decide ("name" ∈ rd_changed d)
     then Some (default "" (rd_values d !! "name")) else None)
    None
    (if bool_decide ("parameters" ∈ rd_changed d)
     then GetParametersForUpdate X d ResourceIBMCdToolchainToolSecuritycompliance
            {[ "api_key" := "api-key" ]}
     else ∅).

(** Whether a handler gets as far as its call of the SDK: the client is
    there and the resource ID separates into two parts at least. *)
Definition session_ok (meta : ClientSession (Remote X)) : bool :=
  match session_CdToolchainV2 meta with
  | inl _ => false
  | inr _ => true
  end.

(** The two parts [parts[0]] and [parts[1]] of the resource ID. *)
Definition id_parts (d : ResourceData) : option (string * string) :=
  match SepIdParts X (rd_Id d) "/" with
  | inl _ => None
  | inr parts =>
    match parts !! 0%nat, parts !! 1%nat with
    | Some toolchainID, Some toolID => Some (toolchainID, toolID)
    | _, _ => None
    end
  end.

Definition id_ok (d : ResourceData) : bool :=
  match id_parts d with
  | Some _ => true
  | None => false
  end.

Definition update_has_change (d : ResourceData) : bool :=
  bool_decide ("parameters" ∈ rd_changed d) || bool_decide ("name" ∈ rd_changed d).

Definition update_reaches_sdk (meta : ClientSession (Remote X)) (d : ResourceData) : bool :=
  session_ok meta && id_ok d &&
  negb (bool_decide ("toolchain_id" ∈ rd_changed d)) && update_has_change d.

(** A computation whose result and whose writes to [d] are the same from
    every state, and that touches nothing but [d]. *)
Definition state_independent (m : M X Diagnostics) : Prop :=
  exists (r : outcome Diagnostics) (writes : list (string * any)),
    forall s, m s = (r, with_d (write_all writes) s).

(** The diagnostics for the first refused field of a list, if any. *)
Definition refusal (fields : list (string * any)) : Diagnostics :=
  match first_refused fields with
  | Some (key, e) => diag_FromErr ("Error setting " +:+ key +:+ ": " +:+ e)
  | None => []
  end.

End Vocabulary.

Arguments with_d {X} _ _.
Arguments after_call {X} _ _ _.
Arguments after_log {X} _ _.
Arguments state_independent {X} _.
Arguments session_ok {X} _.

(** The requests of the [CreateTool] calls of a record of calls. *)
Definition create_requests (cs : list SdkCall) : list CreateToolOptions.t :=
  omap (fun c => match c with CallCreateTool o => Some o | _ => None end) cs.

(** * A small instance, for examples

    [flex.SepIdParts] as a split at the separator, a service that counts
    its tools, and clients that answer in fixed ways. *)

Fixpoint split_at (sep : ascii) (s : string) : list string :=
  match s with
  | EmptyString => [ "" ]
  | String c rest =>
    if Ascii.eqb c sep
    then "" :: split_at sep rest
    else
      match split_at sep rest with
      | first :: others => String c first :: others
      | [] => [ String c "" ]
      end
  end.

Fixpoint occurs (sep : ascii) (s : string) : bool :=
  match s with
  | EmptyString => false
  | String c rest => Ascii.eqb c sep || occurs sep rest
  end.

Definition demo_SepIdParts (id separator : string) : error + list string :=
  match separator with
  | String sep EmptyString =>
    if occurs sep id
    then inr (split_at sep id)
    else inl ("The given id " +:+ id +:+ " does not contain " +:+ separator)
  | _ => inl "separator not supported"
  end.

Definition demo_parameters (ps : list (gmap string any)) : gmap string any :=
  default ∅ (head ps).

Definition demoX : Externals :=
  mkExternals nat
    (fun d _ _ => demo_parameters (rd_parameters d))
    (fun ps _ _ => ps)
    (fun d _ _ => demo_parameters (rd_parameters d))
    demo_SepIdParts
    (fun _ => "2022-11-01T10:00:00.000Z")
    (fun p =>
       match ToolchainToolPrototypePatch.Name p with
       | Some n => <[ "name" := AString n ]> (ToolchainToolPrototypePatch.Parameters p)
       | None => ToolchainToolPrototypePatch.Parameters p
       end)
    (fun r =>
       match r with
       | Some x => DetailedResponse.RawResult x
       | None => "<nil>"
       end)
    (fun _ _ => None).

Definition demo_toolchain : string := "6b0bd1a4-7d67-4a4e-9d59-4f1c2d5f1c6e".
Definition demo_tool_id : string := "9603dcd4-3c86-44f8-8d0a-9427369878cf".

Definition demo_referent : ToolModelReferent.t :=
  ToolModelReferent.mk (Some "https://cloud.ibm.com/devops/tool") None.

Definition demo_tool (referent : option ToolModelReferent.t) : ToolchainTool.t :=
  ToolchainTool.mk (Some demo_tool_id) (Some "rg-1") (Some "crn:tool")
    (Some "security_compliance") (Some demo_toolchain) (Some "crn:toolchain")
    (Some "https://api/tool") referent (Some "compliance") (Some 1667296800000%Z)
    {[ "name" := AString "compliance" ]} (Some "configured").

Definition ok_response (code : Z) : DetailedResponse.t := DetailedResponse.mk code "{}".

(** A client whose calls all succeed; [GetToolByID] answers [tool]. *)
Definition demo_client (tool : ToolchainTool.t) : CdToolchainV2 nat :=
  mkClient nat
    (fun _ n => (SdkOk (ToolchainToolPost.mk (Some demo_tool_id)) (ok_response 201), S n))
    (fun _ n => (SdkOk tool (ok_response 200), n))
    (fun _ n => (SdkOk (ToolchainToolPatch.mk (Some demo_tool_id)) (ok_response 200), n))
    (fun _ n => (SdkOk tt (ok_response 204), pred n)).

(** A client whose calls all fail with the status [code]. *)
Definition failing_client (code : Z) : CdToolchainV2 nat :=
  mkClient nat
    (fun _ n => (SdkErr (Some (ok_response code)) "request failed", n))
    (fun _ n => (SdkErr (Some (ok_response code)) "request failed", n))
    (fun _ n => (SdkErr (Some (ok_response code)) "request failed", n))
    (fun _ n => (SdkErr (Some (ok_response code)) "request failed", n)).

(** A client whose [CreateTool] answers a tool without ID. *)
Definition anonymous_client : CdToolchainV2 nat :=
  mkClient nat
    (fun _ n => (SdkOk (ToolchainToolPost.mk None) (ok_response 201), S n))
    (fun _ n => (SdkOk (demo_tool (Some demo_referent)) (ok_response 200), n))
    (fun _ n => (SdkOk (ToolchainToolPatch.mk None) (ok_response 200), n))
    (fun _ n => (SdkOk tt (ok_response 204), pred n)).

Definition demo_meta (c : CdToolchainV2 nat) : ClientSession (Remote demoX) :=
  mkSession nat (inr c).

Definition no_client : ClientSession (Remote demoX) :=
  mkSession nat (inl "no credentials").

(** [d] as Create receives it, and as the other handlers do. *)
Definition demo_d (id : string) (changed : gset string) : ResourceData :=
  mkResourceData id
    {[ "toolchain_id" := demo_toolchain; "name" := "compliance" ]}
    [ {[ "name" := AString "compliance"; "evidence_repo_name" := AString "repo" ]} ]
    changed ∅.

Definition demo_id : string := demo_toolchain +:+ "/" +:+ demo_tool_id.

Definition demo_state (d : ResourceData) : St demoX := @mkSt demoX d 1 [] [].

Definition good_client : CdToolchainV2 nat := demo_client (demo_tool (Some demo_referent)).

(** A client whose [GetToolByID] answers a tool without referent. *)
Definition bare_client : CdToolchainV2 nat := demo_client (demo_tool None).

(** The state in which Create is invoked for a new resource. *)
Definition fresh_state : St demoX := demo_state (demo_d "" ∅).

(** The state in which the other handlers are invoked, with the attributes
    [changed] differing from the prior state. *)
Definition known_state (changed : gset string) : St demoX :=
  demo_state (demo_d demo_id changed).

(** A state whose resource ID has no separator. *)
Definition unparsed_state : St demoX := demo_state (demo_d "9603dcd4" ∅).

(** Another state of the same resource: attributes written earlier, a
    service with more tools, and a log that is not empty. *)
Definition other_state : St demoX :=
  @mkSt demoX
    (mkResourceData demo_id {[ "toolchain_id" := demo_toolchain ]} [] ∅
       {[ "name" := AStringPtr (Some "old name"); "extra" := AString "kept" ]})
    7 [] [ "earlier line" ].

(** * Vocabulary of further statements *)

Section MoreVocabulary.

Context (X : Externals).

(** What Read, Update and Delete do before their SDK call (lines 216-229,
    287-300 and 336-349): get the client, separate the resource ID, take
    its first two parts.  Either the handler stops there, with an error
    or a panic, or it goes on with the client and the two parts. *)
Definition before_call (meta : ClientSession (Remote X)) (d : ResourceData)
    : outcome Diagnostics + (CdToolchainV2 (Remote X) * string * string) :=
  match session_CdToolchainV2 meta with
  | inl err => inl (Returned (diag_FromErr err))
  | inr client =>
    match SepIdParts X (rd_Id d) "/" with
    | inl err => inl (Returned (diag_FromErr err))
    | inr parts =>
      match parts !! 0%nat with
      | None => inl (Panicked "index out of range")
      | Some toolchainID =>
        match parts !! 1%nat with
        | None => inl (Panicked "index out of range")
        | Some toolID => inr (client, toolchainID, toolID)
        end
      end
    end
  end.

(** What a handler leaves alone: the planned values of [d], and what was
    already in the record of calls and in the log; and when the record of
    calls has not grown, the remote service. *)
Definition keeps_plan (s s' : St X) : Prop :=
  rd_values (st_d s') = rd_values (st_d s) /\
  rd_parameters (st_d s') = rd_parameters (st_d s) /\
  rd_changed (st_d s') = rd_changed (st_d s) /\
  st_calls s `prefix_of` st_calls s' /\
  st_log s `prefix_of` st_log s' /\
  (length (st_calls s') = length (st_calls s) -> st_remote s' = st_remote s).

(** The attributes written between two states are among [names]. *)
Definition writes_only (names : gset string) (s s' : St X) : Prop :=
  forall key, key ∉ names ->
    rd_written (st_d s') !! key = rd_written (st_d s) !! key.

(** A handler that returns hands back no diagnostic or one error. *)
Definition one_error_at_most (r : outcome Diagnostics) : Prop :=
  match r with
  | Panicked _ => True
  | Returned ds => ds = [] \/ exists e, ds = diag_FromErr e
  end.

(** A computation that, from every state, gives the same result and makes
    the same writes to [d], all of them to attributes among [names]. *)
Definition assigns_within (names : gset string) (m : M X Diagnostics) : Prop :=
  exists (r : outcome Diagnostics) (writes : list (string * any)),
    (forall s, m s = (r, with_d (write_all writes) s)) /\
    Forall (fun kv => fst kv ∈ names) writes /\
    one_error_at_most r.

(** What every run of a handler respects: the plan is kept, only declared
    attributes are written, and at most one error comes back. *)
Definition behaves (names : gset string) (s : St X)
    (ran : outcome Diagnostics * St X) : Prop :=
  keeps_plan s (snd ran) /\ writes_only names s (snd ran) /\
  one_error_at_most (fst ran).

End MoreVocabulary.

Arguments behaves {X} _ _ _.
Arguments keeps_plan {X} _ _.
Arguments writes_only {X} _ _ _.
Arguments assigns_within {X} _ _.

(** A pointer to a string that is not nil. *)
Definition is_string_pointer (value : any) : bool :=
  match value with
  | AStringPtr (Some _) => true
  | _ => false
  end.

(** A hexadecimal digit or a hyphen. *)
Definition hex_or_hyphen (c : ascii) : bool := is_hex c || is_char "-" c.

(** The attributes that the schema of the resource declares. *)
Definition declared_attributes : gset string :=
  dom (resource_Schema ResourceIBMCdToolchainToolSecuritycompliance).

(** The entry of the validator table for an identifier. *)
Definition validator_entry (identifier : string) : option ValidateSchema :=
  List.find (fun schema => String.eqb (vs_Identifier schema) identifier)
    (rv_Schema ResourceIBMCdToolchainToolSecuritycomplianceValidator).

(** A schema attribute and a validator entry that agree: a string checked
    by the validator of this resource under the identifier of the entry,
    required or optional as the entry says. *)
Definition agrees_with_entry (attribute : Schema) (entry : ValidateSchema) : bool :=
  match schema_Type attribute, schema_ValidateFunc attribute with
  | TypeString, Some (resource, identifier) =>
    String.eqb resource
      (rv_ResourceName ResourceIBMCdToolchainToolSecuritycomplianceValidator)
    && String.eqb identifier (vs_Identifier entry)
    && Bool.eqb (schema_Required attribute) (vs_Required entry)
    && Bool.eqb (schema_Optional attribute) (vs_Optional entry)
  | _, _ => false
  end.

(** A client that counts its tools: [GetToolByID] finds the tool as long as
    one is left, and answers 404 afterwards. *)
Definition counting_client : CdToolchainV2 nat :=
  mkClient nat
    (fun _ n => (SdkOk (ToolchainToolPost.mk (Some demo_tool_id)) (ok_response 201), S n))
    (fun _ n =>
       match n with
       | O => (SdkErr (Some (ok_response 404)) "not found", n)
       | S _ => (SdkOk (demo_tool (Some demo_referent)) (ok_response 200), n)
       end)
    (fun _ n => (SdkOk (ToolchainToolPatch.mk (Some demo_tool_id)) (ok_response 200), n))
    (fun _ n => (SdkOk tt (ok_response 204), pred n)).

(** An instance whose [SepIdParts] hands back the ID whole, as one part. *)
Definition one_part_X : Externals :=
  mkExternals nat
    (GetParametersForCreate demoX) (GetParametersFromRead demoX)
    (GetParametersForUpdate demoX)
    (fun id _ => inr [ id ])
    (DateTimeToString demoX) (AsPatch demoX) (DetailedResponse_String demoX)
    (Set_error demoX).

(** * Properties of the handlers *)

Ltac run :=
  repeat progress
    (unfold bind, ret, panic, deref, index, update_d, the_d, d_Id, d_SetId, d_Get,
       d_GetOk, d_HasChange, log_Printf, invoke;
     cbn beta iota delta [fst snd]).

Section HandlerProperties.

Context {X : Externals}.

Implicit Types (s : St X) (meta : ClientSession (Remote X)) (d : ResourceData).

(** ** States *)

Lemma with_d_id s : with_d (fun d => d) s = s.
Proof. by destruct s. Qed.

Lemma write_all_nil d : write_all [] d = d.
Proof. reflexivity. Qed.

Lemma write_all_cons key value writes d :
  write_all ((key, value) :: writes) d = write_all writes (rd_write key value d).
Proof. reflexivity. Qed.

Lemma write_all_Id writes d : rd_Id (write_all writes d) = rd_Id d.
Proof.
  revert d. induction writes as [|[k v] ws IH]; intros d; [done|].
  rewrite write_all_cons, IH. done.
Qed.

Lemma write_all_lookup_other writes d key :
  key ∉ (fst <$> writes) ->
  rd_written (write_all writes d) !! key = rd_written d !! key.
Proof.
  revert d. induction writes as [|[k v] ws IH]; intros d Hnot; [done|].
  rewrite write_all_cons, IH.
  - cbn. apply lookup_insert_ne. intros ->. apply Hnot. cbn. left.
  - intros Hin. apply Hnot. cbn. by right.
Qed.

Lemma write_all_lookup writes d key value :
  NoDup (fst <$> writes) -> (key, value) ∈ writes ->
  rd_written (write_all writes d) !! key = Some value.
Proof.
  revert d. induction writes as [|[k v] ws IH]; intros d Hnd Hin.
  - by apply elem_of_nil in Hin.
  - cbn in Hnd. apply NoDup_cons in Hnd as [Hk Hnd].
    rewrite write_all_cons.
    apply elem_of_cons in Hin as [Heq|Hin].
    + injection Heq as -> ->.
      rewrite write_all_lookup_other by done. cbn. apply lookup_insert_eq.
    + by apply IH.
Qed.

(** ** Sequences of assignments *)

Lemma set_or_return_run key value (rest : M X Diagnostics) s :
  set_or_return key value rest s =
  match Set_error X key value with
  | Some e => (Returned (diag_FromErr ("Error setting " +:+ key +:+ ": " +:+ e)), s)
  | None => rest (with_d (rd_write key value) s)
  end.
Proof.
  unfold set_or_return, d_Set. destruct (Set_error X key value); reflexivity.
Qed.

Lemma set_or_return_ext key value (rest1 rest2 : M X Diagnostics) :
  (forall s, rest1 s = rest2 s) ->
  forall s, set_or_return key value rest1 s = set_or_return key value rest2 s.
Proof.
  intros H s. rewrite !set_or_return_run. destruct (Set_error X key value); auto.
Qed.

Lemma set_all_run fields s :
  set_all X fields s = (Returned (refusal X fields), with_d (write_all (accepted X fields)) s).
Proof.
  revert s. unfold refusal.
  induction fields as [|[k v] rest IH]; intros s; cbn [set_all first_refused accepted].
  - by destruct s.
  - rewrite set_or_return_run. destruct (Set_error X k v) as [e|].
    + by destruct s.
    + rewrite IH. reflexivity.
Qed.

Lemma accepted_all fields : first_refused X fields = None -> accepted X fields = fields.
Proof.
  induction fields as [|[k v] rest IH]; cbn; [done|].
  destruct (Set_error X k v); [done|]. intros H. by rewrite IH.
Qed.

Lemma accepted_sublist fields : accepted X fields `sublist_of` fields.
Proof.
  induction fields as [|[k v] rest IH]; cbn; [done|].
  destruct (Set_error X k v).
  - apply sublist_nil_l.
  - by apply sublist_skip.
Qed.

Lemma first_refused_elem fields key e :
  first_refused X fields = Some (key, e) ->
  exists value, (key, value) ∈ fields /\ Set_error X key value = Some e.
Proof.
  induction fields as [|[k v] rest IH]; cbn; [done|].
  destruct (Set_error X k v) as [e'|] eqn:E.
  - intros [= <- <-]. exists v. split; [left|done].
  - intros H. destruct (IH H) as (value & Hin & Hs). exists value. split; [by right|done].
Qed.

(** ** The referent converter *)

Lemma referent_map_inserts (model : ToolModelReferent.t) :
  referent_map model =
  (let modelMap : gmap string any := ∅ in
   let modelMap :=
     match ToolModelReferent.UIHref model with
     | Some _ => <["ui_href" := AStringPtr (ToolModelReferent.UIHref model)]> modelMap
     | None => modelMap
     end in
   match ToolModelReferent.APIHref model with
   | Some _ => <["api_href" := AStringPtr (ToolModelReferent.APIHref model)]> modelMap
   | None => modelMap
   end).
Proof.
  destruct model as [[u|] [a|]]; unfold referent_map; cbn.
  - apply map_eq. intros k.
    rewrite lookup_union, !lookup_insert, !lookup_singleton, lookup_empty.
    repeat case_decide; subst; done.
  - by rewrite (right_id_L ∅ (∪)).
  - by rewrite (left_id_L ∅ (∪)).
  - by rewrite (left_id_L ∅ (∪)).
Qed.

Lemma ReferentToMap_run (model : ToolModelReferent.t) s :
  resourceIBMCdToolchainToolSecuritycomplianceToolModelReferentToMap (Some model) s
  = (Returned (referent_map model, None), s).
Proof.
  rewrite referent_map_inserts. reflexivity.
Qed.

(** C6, amended. The input of the converter is a pointer.  For every input
    that is not nil, that is [Some model], the converter returns, without
    touching the state, a map and a nil error; the map binds ["ui_href"] to
    [UIHref] exactly when [UIHref] is not nil, binds ["api_href"] to
    [APIHref] exactly when [APIHref] is not nil, and has no other key.  At
    the nil pointer the converter returns nothing: see
    [ReferentToMap_nil_model_panics]. *)
Theorem ReferentToMap_keys_and_nil_error :
  forall (model : ToolModelReferent.t) s,
  exists modelMap : gmap string any,
    resourceIBMCdToolchainToolSecuritycomplianceToolModelReferentToMap (Some model) s
      = (Returned (modelMap, None), s) /\
    modelMap !! "ui_href" = referent_entry (ToolModelReferent.UIHref model) /\
    modelMap !! "api_href" = referent_entry (ToolModelReferent.APIHref model) /\
    dom modelMap =
      referent_keys "ui_href" (ToolModelReferent.UIHref model) ∪
      referent_keys "api_href" (ToolModelReferent.APIHref model).
Proof.
  intros [ui api] s. eexists. split; [reflexivity|].
  destruct ui as [u|], api as [a|]; cbn [ToolModelReferent.UIHref ToolModelReferent.APIHref
                                        referent_entry referent_keys];
    repeat split;
    rewrite ?dom_insert_L, ?dom_empty_L;
    try (by simplify_map_eq); set_solver.
Qed.

(** ** The assignments of Read *)

Lemma Read_setFields_with_referent (tool : ToolchainTool.t) referent s :
  ToolchainTool.Referent tool = Some referent ->
  Read_setFields tool s = set_all X (mirrored_fields X tool referent) s.
Proof.
  intros Href. unfold Read_setFields, mirrored_fields. cbn [set_all].
  revert s. do 7 apply set_or_return_ext. intros s.
  rewrite Href. unfold bind at 1. rewrite ReferentToMap_run. reflexivity.
Qed.

Lemma state_independent_ret (r : Diagnostics) : state_independent (X:=X) (ret r).
Proof. exists (Returned r), []. intros s. by destruct s. Qed.

Lemma state_independent_panic why : state_independent (X:=X) (panic why).
Proof. exists (Panicked why), []. intros s. by destruct s. Qed.

Lemma state_independent_set key value (rest : M X Diagnostics) :
  state_independent rest -> state_independent (set_or_return key value rest).
Proof.
  intros (r & ws & H). destruct (Set_error X key value) as [e|] eqn:E.
  - exists (Returned (diag_FromErr ("Error setting " +:+ key +:+ ": " +:+ e))), [].
    intros s. rewrite set_or_return_run, E. by destruct s.
  - exists r, ((key, value) :: ws). intros s.
    rewrite set_or_return_run, E, H. reflexivity.
Qed.

Lemma Read_setFields_state_independent (tool : ToolchainTool.t) :
  state_independent (X:=X) (Read_setFields tool).
Proof.
  unfold Read_setFields. do 7 apply state_independent_set.
  destruct (ToolchainTool.Referent tool) as [referent|].
  - destruct (state_independent_set "referent" (AList [AMap (referent_map referent)])
               (set_or_return "updated_at"
                  (AString (DateTimeToString X (ToolchainTool.UpdatedAt tool)))
               (set_or_return "state" (AStringPtr (ToolchainTool.State tool))
               (set_or_return "tool_id" (AStringPtr (ToolchainTool.ID tool)) (ret [])))))
      as (r & ws & H).
    { do 3 apply state_independent_set. apply state_independent_ret. }
    exists r, ws. intros s. unfold bind. rewrite ReferentToMap_run. apply H.
  - apply (state_independent_panic "invalid memory address or nil pointer dereference").
Qed.

(** ** How the handlers run *)

Lemma id_parts_Some d toolchainID toolID :
  id_parts X d = Some (toolchainID, toolID) ->
  exists parts, SepIdParts X (rd_Id d) "/" = inr parts /\
    parts !! 0%nat = Some toolchainID /\ parts !! 1%nat = Some toolID.
Proof.
  unfold id_parts. destruct (SepIdParts X (rd_Id d) "/") as [e|parts]; [done|].
  destruct (parts !! 0%nat) as [a|] eqn:E0; [|done].
  destruct (parts !! 1%nat) as [b|] eqn:E1; [|done].
  intros [= <- <-]. by exists parts.
Qed.

Lemma Read_run meta client s toolchainID toolID :
  session_CdToolchainV2 meta = inr client ->
  id_parts X (st_d s) = Some (toolchainID, toolID) ->
  let opts := GetToolByIDOptions.mk (Some toolchainID) (Some toolID) in
  let called := GetToolByIDWithContext client opts (st_remote s) in
  let s1 := after_call (CallGetToolByID opts) (snd called) s in
  resourceIBMCdToolchainToolSecuritycomplianceRead meta s =
  match fst called with
  | SdkErr response err =>
    if is_not_found response
    then (Returned [], with_d (rd_with_Id "") s1)
    else (Returned (diag_FromErr (failed X "GetToolByIDWithContext" err response)),
          after_log ("[DEBUG] " +:+ failed X "GetToolByIDWithContext" err response) s1)
  | SdkOk toolchainTool _ => Read_setFields toolchainTool s1
  end.
Proof.
  intros Hclient Hid. destruct (id_parts_Some _ _ _ Hid) as (parts & Hsep & H0 & H1).
  cbv zeta. unfold resourceIBMCdToolchainToolSecuritycomplianceRead.
  rewrite Hclient. run. rewrite Hsep. run. rewrite H0. run. rewrite H1. run.
  unfold client_GetToolByID. run.
  unfold GetToolByIDOptions.SetToolID, GetToolByIDOptions.SetToolchainID,
    GetToolByIDOptions.zero. cbn [GetToolByIDOptions.ToolchainID GetToolByIDOptions.ToolID].
  destruct (GetToolByIDWithContext client _ (st_remote s)) as [[tool resp|resp err] remote'].
  - reflexivity.
  - run. destruct (is_not_found resp); reflexivity.
Qed.

Lemma Read_stops meta s :
  session_ok meta && id_ok X (st_d s) = false ->
  snd (resourceIBMCdToolchainToolSecuritycomplianceRead meta s) = s.
Proof.
  unfold session_ok, id_ok, id_parts, resourceIBMCdToolchainToolSecuritycomplianceRead.
  destruct (session_CdToolchainV2 meta) as [e|client]; [done|].
  run. destruct (SepIdParts X (rd_Id (st_d s)) "/") as [e|parts]; [done|].
  run. destruct (parts !! 0%nat); [|done]. run.
  destruct (parts !! 1%nat); [|done]. done.
Qed.

Lemma Read_setFields_frame (tool : ToolchainTool.t) s :
  exists writes,
    snd (Read_setFields tool s) = with_d (write_all writes) s.
Proof.
  destruct (Read_setFields_state_independent tool) as (r & ws & H).
  exists ws. by rewrite H.
Qed.

(** The calls that Read adds to the record: one [GetToolByID] when it gets
    as far as the SDK, none otherwise. *)
Lemma Read_calls meta s :
  exists new,
    st_calls (snd (resourceIBMCdToolchainToolSecuritycomplianceRead meta s))
      = (st_calls s ++ new)%list /\
    Forall (fun c => method_of c = GetToolByID) new /\
    length new = (if session_ok meta && id_ok X (st_d s) then 1 else 0)%nat.
Proof.
  destruct (session_ok meta && id_ok X (st_d s)) eqn:E.
  - apply andb_prop in E as [E1 E2]. unfold session_ok in E1. unfold id_ok in E2.
    destruct (session_CdToolchainV2 meta) as [e|client] eqn:Hc; [done|].
    destruct (id_parts X (st_d s)) as [[tc tl]|] eqn:Hid; [|done].
    exists [CallGetToolByID (GetToolByIDOptions.mk (Some tc) (Some tl))].
    split; [|split; [by repeat constructor|done]].
    rewrite (Read_run _ _ _ _ _ Hc Hid). cbv zeta.
    destruct (GetToolByIDWithContext client _ (st_remote s)) as [[tool resp|resp err] remote'];
      cbn [fst snd].
    + destruct (Read_setFields_frame tool
                 (after_call (CallGetToolByID (GetToolByIDOptions.mk (Some tc) (Some tl)))
                    remote' s)) as (ws & ->).
      reflexivity.
    + destruct (is_not_found resp); reflexivity.
  - exists []. rewrite Read_stops by done. rewrite app_nil_r. by repeat constructor.
Qed.

Lemma invocations_app m (cs1 cs2 : list SdkCall) :
  invocations m (cs1 ++ cs2) = (invocations m cs1 + invocations m cs2)%nat.
Proof. induction cs1 as [|c cs1 IH]; cbn; [done|]. rewrite IH. lia. Qed.

Lemma invocations_all m (cs : list SdkCall) :
  Forall (fun c => method_of c = m) cs -> invocations m cs = length cs.
Proof.
  induction 1 as [|c cs Hc _ IH]; [done|].
  cbn. rewrite Hc, IH. by destruct m.
Qed.

Lemma invocations_none m m' (cs : list SdkCall) :
  m <> m' -> Forall (fun c => method_of c = m') cs -> invocations m cs = 0%nat.
Proof.
  intros Hne. induction 1 as [|c cs Hc _ IH]; [done|].
  cbn. rewrite Hc, IH. by destruct m, m'.
Qed.

Lemma Create_options_run s :
  Create_options s = (Returned (expected_CreateToolOptions X (st_d s)), s).
Proof.
  unfold Create_options, expected_CreateToolOptions. run.
  destruct (rd_values (st_d s) !! "name") as [name|] eqn:E;
    cbn [default from_option id].
  - destruct (String.eqb name ""); cbn [negb]; rewrite ?E; reflexivity.
  - reflexivity.
Qed.

Lemma Create_run meta client s :
  session_CdToolchainV2 meta = inr client ->
  let opts := expected_CreateToolOptions X (st_d s) in
  let called := CreateToolWithContext client opts (st_remote s) in
  let s1 := after_call (CallCreateTool opts) (snd called) s in
  resourceIBMCdToolchainToolSecuritycomplianceCreate meta s =
  match fst called with
  | SdkOk toolchainToolPost _ =>
    match ToolchainToolPost.ID toolchainToolPost with
    | Some toolID =>
      resourceIBMCdToolchainToolSecuritycomplianceRead meta
        (with_d (rd_with_Id (default "" (rd_values (st_d s) !! "toolchain_id")
                             +:+ "/" +:+ toolID)) s1)
    | None => (Panicked "invalid memory address or nil pointer dereference", s1)
    end
  | SdkErr response err =>
    (Returned (diag_FromErr (failed X "CreateToolWithContext" err response)),
     after_log ("[DEBUG] " +:+ failed X "CreateToolWithContext" err response) s1)
  end.
Proof.
  intros Hclient. cbv zeta.
  unfold resourceIBMCdToolchainToolSecuritycomplianceCreate. rewrite Hclient.
  unfold bind at 1. rewrite Create_options_run.
  unfold client_CreateTool. run.
  destruct (CreateToolWithContext client _ (st_remote s)) as [[post resp|resp err] remote'].
  - run. cbn [expected_CreateToolOptions CreateToolOptions.ToolchainID].
    destruct (ToolchainToolPost.ID post); reflexivity.
  - reflexivity.
Qed.

Lemma Create_stops meta s :
  session_ok meta = false ->
  snd (resourceIBMCdToolchainToolSecuritycomplianceCreate meta s) = s.
Proof.
  unfold session_ok, resourceIBMCdToolchainToolSecuritycomplianceCreate.
  by destruct (session_CdToolchainV2 meta).
Qed.

Lemma Create_calls meta s :
  exists new,
    st_calls (snd (resourceIBMCdToolchainToolSecuritycomplianceCreate meta s))
      = (st_calls s ++ new)%list /\
    (if session_ok meta
     then exists rest, new = CallCreateTool (expected_CreateToolOptions X (st_d s)) :: rest /\
            Forall (fun c => method_of c = GetToolByID) rest
     else new = []).
Proof.
  destruct (session_ok meta) eqn:E.
  - unfold session_ok in E.
    destruct (session_CdToolchainV2 meta) as [e|client] eqn:Hc; [done|].
    rewrite (Create_run _ _ _ Hc). cbv zeta.
    destruct (CreateToolWithContext client _ (st_remote s)) as [[post resp|resp err] remote'];
      cbn [fst snd].
    + destruct (ToolchainToolPost.ID post) as [toolID|].
      * match goal with |- context [resourceIBMCdToolchainToolSecuritycomplianceRead meta ?s1] =>
          destruct (Read_calls meta s1) as (new & -> & Hall & _) end.
        eexists. cbn [with_d after_call st_calls]. rewrite <- app_assoc.
        split; [reflexivity|]. by exists new.
      * eexists. split; [reflexivity|]. by exists [].
    + eexists. split; [reflexivity|]. by exists [].
  - exists []. rewrite Create_stops by done. by rewrite app_nil_r.
Qed.

Lemma Update_run meta client s toolchainID toolID :
  session_CdToolchainV2 meta = inr client ->
  id_parts X (st_d s) = Some (toolchainID, toolID) ->
  let opts :=
    UpdateToolOptions.mk (Some toolchainID) (Some toolID)
      (AsPatch X (expected_patch X (st_d s))) in
  let called := UpdateToolWithContext client opts (st_remote s) in
  let s1 := after_call (CallUpdateTool opts) (snd called) s in
  resourceIBMCdToolchainToolSecuritycomplianceUpdate meta s =
  if bool_decide ("toolchain_id" ∈ rd_changed (st_d s))
  then (Returned (diag_FromErr (forceNewError "toolchain_id")), s)
  else if update_has_change (st_d s)
  then
    match fst called with
    | SdkOk _ _ => resourceIBMCdToolchainToolSecuritycomplianceRead meta s1
    | SdkErr response err =>
      (Returned (diag_FromErr (failed X "UpdateToolWithContext" err response)),
       after_log ("[DEBUG] " +:+ failed X "UpdateToolWithContext" err response) s1)
    end
  else resourceIBMCdToolchainToolSecuritycomplianceRead meta s.
Proof.
  intros Hclient Hid. destruct (id_parts_Some _ _ _ Hid) as (parts & Hsep & H0 & H1).
  cbv zeta. unfold resourceIBMCdToolchainToolSecuritycomplianceUpdate.
  rewrite Hclient. run. rewrite Hsep. run. rewrite H0. run. rewrite H1. run.
  destruct (bool_decide ("toolchain_id" ∈ rd_changed (st_d s))); [reflexivity|].
  unfold update_has_change, expected_patch, client_UpdateTool.
  destruct (bool_decide ("parameters" ∈ rd_changed (st_d s)));
    destruct (bool_decide ("name" ∈ rd_changed (st_d s)));
    run; cbn [orb]; try reflexivity;
    unfold UpdateToolOptions.withPatch, UpdateToolOptions.SetToolID,
      UpdateToolOptions.SetToolchainID, UpdateToolOptions.zero,
      ToolchainToolPrototypePatch.withName, ToolchainToolPrototypePatch.withParameters,
      ToolchainToolPrototypePatch.zero, remapFields;
    cbn [UpdateToolOptions.ToolchainID UpdateToolOptions.ToolID
         UpdateToolOptions.ToolchainToolPrototypePatch
         ToolchainToolPrototypePatch.Name ToolchainToolPrototypePatch.ToolTypeID
         ToolchainToolPrototypePatch.Parameters];
    match goal with |- context [UpdateToolWithContext client ?o ?r] =>
      destruct (UpdateToolWithContext client o r) as [[res resp|resp err] remote'] end;
    reflexivity.
Qed.

Lemma Update_stops meta s :
  session_ok meta && id_ok X (st_d s) = false ->
  snd (resourceIBMCdToolchainToolSecuritycomplianceUpdate meta s) = s.
Proof.
  unfold session_ok, id_ok, id_parts, resourceIBMCdToolchainToolSecuritycomplianceUpdate.
  destruct (session_CdToolchainV2 meta) as [e|client]; [done|].
  run. destruct (SepIdParts X (rd_Id (st_d s)) "/") as [e|parts]; [done|].
  run. destruct (parts !! 0%nat); [|done]. run.
  destruct (parts !! 1%nat); [|done]. done.
Qed.

Lemma Delete_run meta client s toolchainID toolID :
  session_CdToolchainV2 meta = inr client ->
  id_parts X (st_d s) = Some (toolchainID, toolID) ->
  let opts := DeleteToolOptions.mk (Some toolchainID) (Some toolID) in
  let called := DeleteToolWithContext client opts (st_remote s) in
  let s1 := after_call (CallDeleteTool opts) (snd called) s in
  resourceIBMCdToolchainToolSecuritycomplianceDelete meta s =
  match fst called with
  | SdkOk _ _ => (Returned [], with_d (rd_with_Id "") s1)
  | SdkErr response err =>
    (Returned (diag_FromErr (failed X "DeleteToolWithContext" err response)),
     after_log ("[DEBUG] " +:+ failed X "DeleteToolWithContext" err response) s1)
  end.
Proof.
  intros Hclient Hid. destruct (id_parts_Some _ _ _ Hid) as (parts & Hsep & H0 & H1).
  cbv zeta. unfold resourceIBMCdToolchainToolSecuritycomplianceDelete.
  rewrite Hclient. run. rewrite Hsep. run. rewrite H0. run. rewrite H1. run.
  unfold client_DeleteTool. run.
  unfold DeleteToolOptions.SetToolID, DeleteToolOptions.SetToolchainID,
    DeleteToolOptions.zero. cbn [DeleteToolOptions.ToolchainID DeleteToolOptions.ToolID].
  destruct (DeleteToolWithContext client _ (st_remote s)) as [[res resp|resp err] remote'];
    reflexivity.
Qed.

Lemma Delete_stops meta s :
  session_ok meta && id_ok X (st_d s) = false ->
  snd (resourceIBMCdToolchainToolSecuritycomplianceDelete meta s) = s.
Proof.
  unfold session_ok, id_ok, id_parts, resourceIBMCdToolchainToolSecuritycomplianceDelete.
  destruct (session_CdToolchainV2 meta) as [e|client]; [done|].
  run. destruct (SepIdParts X (rd_Id (st_d s)) "/") as [e|parts]; [done|].
  run. destruct (parts !! 0%nat); [|done]. run.
  destruct (parts !! 1%nat); [|done]. done.
Qed.

(** ** Create *)

(** C1, amended. For every Create invocation in which the session yields the
    client: the request has [toolchain_id] from [d], the parameters of
    [GetParametersForCreate] under the remapping of ["api_key"] to
    ["api-key"], and a name only when [name] is set in [d]; [CreateTool] is
    called with it; and when the call succeeds with a tool that has an ID,
    the resource ID becomes ["<toolchain_id>/<ID>"] and Read runs from the
    state so obtained. *)
Theorem Create_sends_request_then_sets_id meta client s :
  session_CdToolchainV2 meta = inr client ->
  let opts := expected_CreateToolOptions X (st_d s) in
  let called := CreateToolWithContext client opts (st_remote s) in
  let s1 := after_call (CallCreateTool opts) (snd called) s in
  Create_options s = (Returned opts, s) /\
  (exists rest,
     st_calls (snd (resourceIBMCdToolchainToolSecuritycomplianceCreate meta s))
       = (st_calls s ++ CallCreateTool opts :: rest)%list) /\
  match fst called with
  | SdkOk toolchainToolPost _ =>
    match ToolchainToolPost.ID toolchainToolPost with
    | Some toolID =>
      let id := default "" (rd_values (st_d s) !! "toolchain_id") +:+ "/" +:+ toolID in
      rd_Id (st_d (with_d (rd_with_Id id) s1)) = id /\
      resourceIBMCdToolchainToolSecuritycomplianceCreate meta s =
      resourceIBMCdToolchainToolSecuritycomplianceRead meta (with_d (rd_with_Id id) s1)
    | None => True
    end
  | SdkErr _ _ => True
  end.
Proof.
  intros Hclient. cbv zeta. split; [apply Create_options_run|]. split.
  - destruct (Create_calls meta s) as (new & Hnew & Hshape).
    unfold session_ok in Hshape. rewrite Hclient in Hshape.
    destruct Hshape as (rest & -> & _). by exists rest.
  - rewrite (Create_run _ _ _ Hclient). cbv zeta.
    destruct (CreateToolWithContext client _ (st_remote s)) as [[post resp|resp err] remote'];
      cbn [fst snd]; [|done].
    destruct (ToolchainToolPost.ID post); done.
Qed.

(** C9. Whatever [d] holds and whatever the helpers return, the request that
    Create builds has the tool type ID ["security_compliance"], and so has
    every [CreateTool] request that a run of Create sends. *)
Theorem Create_tool_type_is_security_compliance meta s :
  (exists opts, Create_options s = (Returned opts, s) /\
     CreateToolOptions.ToolTypeID opts = Some "security_compliance") /\
  exists new,
    st_calls (snd (resourceIBMCdToolchainToolSecuritycomplianceCreate meta s))
      = (st_calls s ++ new)%list /\
    Forall (fun opts => CreateToolOptions.ToolTypeID opts = Some "security_compliance")
      (create_requests new).
Proof.
  split.
  - eexists. split; [apply Create_options_run|reflexivity].
  - destruct (Create_calls meta s) as (new & Hnew & Hshape). exists new. split; [done|].
    destruct (session_ok meta).
    + destruct Hshape as (rest & -> & Hrest). cbn. constructor; [reflexivity|].
      clear Hnew. induction Hrest as [|c cs Hc _ IH]; [constructor|].
      destruct c; cbn in Hc |- *; try discriminate; exact IH.
    + subst new. constructor.
Qed.

(** ** Read *)

(** C2, amended. For every Read invocation in which [GetToolByID] succeeds
    with a tool that has a referent, the handler assigns the eleven mirrored
    fields in order; it returns no diagnostic and [d] holds all eleven
    values, unless [d.Set] refuses one of them, in which case it returns the
    error of the first refused field and [d] holds the fields before it. *)
Theorem Read_mirrors_remote_tool meta client s toolchainID toolID
    (tool : ToolchainTool.t) response remote' referent :
  session_CdToolchainV2 meta = inr client ->
  id_parts X (st_d s) = Some (toolchainID, toolID) ->
  GetToolByIDWithContext client
    (GetToolByIDOptions.mk (Some toolchainID) (Some toolID)) (st_remote s)
    = (SdkOk tool response, remote') ->
  ToolchainTool.Referent tool = Some referent ->
  let fields := mirrored_fields X tool referent in
  let ran := resourceIBMCdToolchainToolSecuritycomplianceRead meta s in
  fst ran = Returned (refusal X fields) /\
  Forall (fun kv => rd_written (st_d (snd ran)) !! fst kv = Some (snd kv))
    (accepted X fields) /\
  match first_refused X fields with
  | None => fst ran = Returned [] /\ accepted X fields = fields
  | Some (key, e) =>
    HasError (refusal X fields) = true /\
    exists value, (key, value) ∈ fields /\ Set_error X key value = Some e
  end.
Proof.
  intros Hclient Hid Hcall Href. cbv zeta.
  rewrite (Read_run _ _ _ _ _ Hclient Hid). cbv zeta. rewrite Hcall. cbn [fst snd].
  rewrite (Read_setFields_with_referent _ _ _ Href), set_all_run. cbn [fst snd].
  split; [reflexivity|]. split.
  - apply Forall_forall. intros [k v] Hin. cbn [fst snd with_d st_d].
    apply write_all_lookup; [|done].
    eapply sublist_NoDup; [|apply fmap_sublist, accepted_sublist].
    cbn. compute_done.
  - unfold refusal.
    destruct (first_refused X (mirrored_fields X tool referent)) as [[key e]|] eqn:E.
    + split; [reflexivity|]. by apply first_refused_elem.
    + split; [reflexivity|]. by apply accepted_all.
Qed.

(** C8. For every Read invocation in which [GetToolByID] returns an error:
    with a response of status 404 the resource ID becomes empty and no
    diagnostic is returned; otherwise an error diagnostic is returned and
    [d], the resource ID with it, is left as it was. *)
Theorem Read_when_GetToolByID_fails meta client s toolchainID toolID response err remote' :
  session_CdToolchainV2 meta = inr client ->
  id_parts X (st_d s) = Some (toolchainID, toolID) ->
  GetToolByIDWithContext client
    (GetToolByIDOptions.mk (Some toolchainID) (Some toolID)) (st_remote s)
    = (SdkErr response err, remote') ->
  let ran := resourceIBMCdToolchainToolSecuritycomplianceRead meta s in
  if is_not_found response
  then fst ran = Returned [] /\ rd_Id (st_d (snd ran)) = ""
  else
    fst ran = Returned (diag_FromErr (failed X "GetToolByIDWithContext" err response)) /\
    HasError (diag_FromErr (failed X "GetToolByIDWithContext" err response)) = true /\
    st_d (snd ran) = st_d s /\
    rd_Id (st_d (snd ran)) = rd_Id (st_d s).
Proof.
  intros Hclient Hid Hcall. cbv zeta.
  rewrite (Read_run _ _ _ _ _ Hclient Hid). cbv zeta. rewrite Hcall. cbn [fst snd].
  destruct (is_not_found response); repeat split; reflexivity.
Qed.

(** ** Update *)

(** C10, amended. For every Update invocation in which the session yields
    the client and the resource ID separates into its parts, and in which
    [toolchain_id] has changed: the handler returns the error diagnostic
    that names the ForceNew property ["toolchain_id"], and the whole state
    is as before: [d], the remote service, the record of SDK calls (so no
    [UpdateTool]) and the log. *)
Theorem Update_refuses_changed_toolchain_id meta client s toolchainID toolID :
  session_CdToolchainV2 meta = inr client ->
  id_parts X (st_d s) = Some (toolchainID, toolID) ->
  "toolchain_id" ∈ rd_changed (st_d s) ->
  resourceIBMCdToolchainToolSecuritycomplianceUpdate meta s
    = (Returned (diag_FromErr (forceNewError "toolchain_id")), s) /\
  HasError (diag_FromErr (forceNewError "toolchain_id")) = true /\
  invocations UpdateTool
    (st_calls (snd (resourceIBMCdToolchainToolSecuritycomplianceUpdate meta s)))
    = invocations UpdateTool (st_calls s).
Proof.
  intros Hclient Hid Hchanged.
  rewrite (Update_run _ _ _ _ _ Hclient Hid). cbv zeta.
  rewrite bool_decide_eq_true_2 by done. done.
Qed.

(** Whatever the session and the resource ID are, an Update in which
    [toolchain_id] has changed leaves the whole state as it was. *)
Lemma Update_changed_toolchain_id_touches_nothing meta s :
  "toolchain_id" ∈ rd_changed (st_d s) ->
  snd (resourceIBMCdToolchainToolSecuritycomplianceUpdate meta s) = s.
Proof.
  intros Hchanged.
  destruct (session_ok meta && id_ok X (st_d s)) eqn:E.
  - apply andb_prop in E as [E1 E2]. unfold session_ok in E1. unfold id_ok in E2.
    destruct (session_CdToolchainV2 meta) as [e|client] eqn:Hc; [done|].
    destruct (id_parts X (st_d s)) as [[tc tl]|] eqn:Hid; [|done].
    rewrite (Update_run _ _ _ _ _ Hc Hid). cbv zeta.
    by rewrite bool_decide_eq_true_2.
  - by apply Update_stops.
Qed.

(** ** Delete *)

(** C4, amended. For every Delete invocation in which the session yields the
    client and the resource ID separates into its parts: [DeleteTool] is
    called with the two parts as toolchain ID and tool ID; when the call
    succeeds the resource ID becomes empty and no diagnostic is returned;
    when it fails an error diagnostic is returned and [d], the resource ID
    with it, is left as it was. *)
Theorem Delete_calls_DeleteTool_then_clears_id meta client s toolchainID toolID :
  session_CdToolchainV2 meta = inr client ->
  id_parts X (st_d s) = Some (toolchainID, toolID) ->
  let opts := DeleteToolOptions.mk (Some toolchainID) (Some toolID) in
  let called := DeleteToolWithContext client opts (st_remote s) in
  let ran := resourceIBMCdToolchainToolSecuritycomplianceDelete meta s in
  st_calls (snd ran) = (st_calls s ++ [CallDeleteTool opts])%list /\
  st_remote (snd ran) = snd called /\
  match fst called with
  | SdkOk _ _ => fst ran = Returned [] /\ rd_Id (st_d (snd ran)) = ""
  | SdkErr response err =>
    fst ran = Returned (diag_FromErr (failed X "DeleteToolWithContext" err response)) /\
    HasError (diag_FromErr (failed X "DeleteToolWithContext" err response)) = true /\
    st_d (snd ran) = st_d s /\
    rd_Id (st_d (snd ran)) = rd_Id (st_d s)
  end.
Proof.
  intros Hclient Hid. cbv zeta.
  rewrite (Delete_run _ _ _ _ _ Hclient Hid). cbv zeta.
  destruct (DeleteToolWithContext client _ (st_remote s)) as [[res resp|resp err] remote'];
    cbn [fst snd]; repeat split; reflexivity.
Qed.

(** ** The four handlers and their SDK methods *)

(** C3, amended. Each handler calls its SDK method at most once: Create
    calls [CreateTool] once when the session yields the client; Read and
    Delete call [GetToolByID] and [DeleteTool] once when moreover the
    resource ID separates into its parts; Update calls [UpdateTool] once
    when moreover [toolchain_id] is unchanged and [parameters] or [name]
    has changed; otherwise the method is not called. *)
Theorem handlers_call_their_method_at_most_once meta s :
  (exists new,
     st_calls (snd (resourceIBMCdToolchainToolSecuritycomplianceCreate meta s))
       = (st_calls s ++ new)%list /\
     invocations CreateTool new = (if session_ok meta then 1 else 0)%nat) /\
  (exists new,
     st_calls (snd (resourceIBMCdToolchainToolSecuritycomplianceRead meta s))
       = (st_calls s ++ new)%list /\
     invocations GetToolByID new
       = (if session_ok meta && id_ok X (st_d s) then 1 else 0)%nat) /\
  (exists new,
     st_calls (snd (resourceIBMCdToolchainToolSecuritycomplianceUpdate meta s))
       = (st_calls s ++ new)%list /\
     invocations UpdateTool new
       = (if update_reaches_sdk X meta (st_d s) then 1 else 0)%nat) /\
  (exists new,
     st_calls (snd (resourceIBMCdToolchainToolSecuritycomplianceDelete meta s))
       = (st_calls s ++ new)%list /\
     invocations DeleteTool new
       = (if session_ok meta && id_ok X (st_d s) then 1 else 0)%nat).
Proof.
  repeat split.
  - destruct (Create_calls meta s) as (new & Hnew & Hshape). exists new. split; [done|].
    destruct (session_ok meta).
    + destruct Hshape as (rest & -> & Hrest). cbn.
      by rewrite (invocations_none CreateTool GetToolByID).
    + by subst new.
  - destruct (Read_calls meta s) as (new & Hnew & Hall & Hlen). exists new. split; [done|].
    by rewrite invocations_all.
  - unfold update_reaches_sdk.
    destruct (session_ok meta && id_ok X (st_d s)) eqn:E.
    + cbn [andb]. apply andb_prop in E as [E1 E2].
      unfold session_ok in E1. unfold id_ok in E2.
      destruct (session_CdToolchainV2 meta) as [e|client] eqn:Hc; [done|].
      destruct (id_parts X (st_d s)) as [[tc tl]|] eqn:Hid; [|done].
      rewrite (Update_run _ _ _ _ _ Hc Hid). cbv zeta.
      destruct (bool_decide ("toolchain_id" ∈ rd_changed (st_d s))); cbn [negb andb].
      { exists []. by rewrite app_nil_r. }
      destruct (update_has_change (st_d s)).
      * destruct (UpdateToolWithContext client _ (st_remote s))
          as [[res resp|resp err] remote']; cbn [fst snd].
        -- match goal with
           |- context [resourceIBMCdToolchainToolSecuritycomplianceRead meta ?s1] =>
             destruct (Read_calls meta s1) as (new & -> & Hall & _) end.
           eexists. cbn [after_call st_calls]. rewrite <- app_assoc.
           split; [reflexivity|]. cbn.
           by rewrite (invocations_none UpdateTool GetToolByID).
        -- eexists. split; [reflexivity|]. reflexivity.
      * destruct (Read_calls meta s) as (new & -> & Hall & _).
        exists new. split; [done|].
        by rewrite (invocations_none UpdateTool GetToolByID).
    + rewrite Update_stops by done. exists []. rewrite app_nil_r.
      split; [done|]. cbn [andb]. done.
  - destruct (session_ok meta && id_ok X (st_d s)) eqn:E.
    + apply andb_prop in E as [E1 E2]. unfold session_ok in E1. unfold id_ok in E2.
      destruct (session_CdToolchainV2 meta) as [e|client] eqn:Hc; [done|].
      destruct (id_parts X (st_d s)) as [[tc tl]|] eqn:Hid; [|done].
      rewrite (Delete_run _ _ _ _ _ Hc Hid). cbv zeta.
      destruct (DeleteToolWithContext client _ (st_remote s))
        as [[res resp|resp err] remote']; cbn [fst snd];
        eexists; (split; [reflexivity|]); reflexivity.
    + rewrite Delete_stops by done. exists []. by rewrite app_nil_r.
Qed.

(** ** Determinism of the mapping of Read *)

Lemma write_all_snoc writes key value d :
  write_all (writes ++ [(key, value)]) d = rd_write key value (write_all writes d).
Proof. unfold write_all. by rewrite foldl_app. Qed.

Lemma write_all_lookup_same writes d1 d2 key :
  key ∈ (fst <$> writes) ->
  rd_written (write_all writes d1) !! key = rd_written (write_all writes d2) !! key.
Proof.
  induction writes as [|[k v] ws IH] using rev_ind; intros Hin.
  - by apply elem_of_nil in Hin.
  - rewrite !write_all_snoc. cbn [rd_write rd_written].
    destruct (decide (k = key)) as [->|Hne].
    + by rewrite !lookup_insert_eq.
    + rewrite !lookup_insert_ne by done. apply IH.
      rewrite fmap_app in Hin. apply elem_of_app in Hin as [Hin|Hin]; [done|].
      cbn in Hin. apply list_elem_of_singleton in Hin. congruence.
Qed.

Lemma write_all_written writes d1 d2 :
  rd_written d1 = rd_written d2 ->
  rd_written (write_all writes d1) = rd_written (write_all writes d2).
Proof.
  revert d1 d2. induction writes as [|[k v] ws IH]; intros d1 d2 H; [done|].
  rewrite !write_all_cons. apply IH. cbn. by rewrite H.
Qed.

(** C7. Two runs of Read that receive equal answers from [GetToolByID]
    return the same result (diagnostics or panic) and make the same writes
    to [d], whatever the two states were: every attribute written holds the
    same value after both runs, and the attributes as a whole are equal when
    they were equal before.  The converter, in particular, returns the same
    map for the same referent from every state. *)
Theorem Read_mapping_is_deterministic meta1 meta2 client1 client2 s1 s2
    toolchainID1 toolID1 toolchainID2 toolID2
    (answer : sdk_result ToolchainTool.t) remote1 remote2 :
  session_CdToolchainV2 meta1 = inr client1 ->
  session_CdToolchainV2 meta2 = inr client2 ->
  id_parts X (st_d s1) = Some (toolchainID1, toolID1) ->
  id_parts X (st_d s2) = Some (toolchainID2, toolID2) ->
  GetToolByIDWithContext client1
    (GetToolByIDOptions.mk (Some toolchainID1) (Some toolID1)) (st_remote s1)
    = (answer, remote1) ->
  GetToolByIDWithContext client2
    (GetToolByIDOptions.mk (Some toolchainID2) (Some toolID2)) (st_remote s2)
    = (answer, remote2) ->
  let ran1 := resourceIBMCdToolchainToolSecuritycomplianceRead meta1 s1 in
  let ran2 := resourceIBMCdToolchainToolSecuritycomplianceRead meta2 s2 in
  fst ran1 = fst ran2 /\
  (exists writes,
     rd_written (st_d (snd ran1)) = rd_written (write_all writes (st_d s1)) /\
     rd_written (st_d (snd ran2)) = rd_written (write_all writes (st_d s2)) /\
     Forall (fun key => rd_written (st_d (snd ran1)) !! key
                        = rd_written (st_d (snd ran2)) !! key) (fst <$> writes)) /\
  (rd_written (st_d s1) = rd_written (st_d s2) ->
   rd_written (st_d (snd ran1)) = rd_written (st_d (snd ran2))) /\
  (forall model : ToolModelReferent.t,
     fst (resourceIBMCdToolchainToolSecuritycomplianceToolModelReferentToMap
            (Some model) s1)
     = fst (resourceIBMCdToolchainToolSecuritycomplianceToolModelReferentToMap
              (Some model) s2)).
Proof.
  intros Hc1 Hc2 Hid1 Hid2 Hcall1 Hcall2. cbv zeta.
  rewrite (Read_run _ _ _ _ _ Hc1 Hid1), (Read_run _ _ _ _ _ Hc2 Hid2). cbv zeta.
  rewrite Hcall1, Hcall2. cbn [fst snd].
  assert (Hconv : forall model : ToolModelReferent.t,
     fst (resourceIBMCdToolchainToolSecuritycomplianceToolModelReferentToMap
            (Some model) s1)
     = fst (resourceIBMCdToolchainToolSecuritycomplianceToolModelReferentToMap
              (Some model) s2)).
  { intros model. by rewrite !ReferentToMap_run. }
  destruct answer as [tool resp|resp err].
  - destruct (Read_setFields_state_independent tool) as (r & ws & H).
    rewrite !H. cbn [fst snd with_d st_d after_call].
    split; [done|]. split; [|split; [|done]].
    + exists ws. split; [done|]. split; [done|].
      apply Forall_forall. intros key Hin. by apply write_all_lookup_same.
    + apply write_all_written.
  - destruct (is_not_found resp); cbn [fst snd with_d st_d after_call after_log];
      (split; [done|]); (split; [|split; [|done]]);
      first [ by (exists []; repeat split; constructor) | done ].
Qed.

End HandlerProperties.

(** * The theorems at work on the small instance *)

Lemma Create_sends_request_then_sets_id_witness :
  session_CdToolchainV2 (demo_meta good_client) = inr good_client /\
  resourceIBMCdToolchainToolSecuritycomplianceCreate (demo_meta good_client) fresh_state
  = resourceIBMCdToolchainToolSecuritycomplianceRead (demo_meta good_client)
      (with_d (rd_with_Id demo_id)
         (after_call (X:=demoX)
            (CallCreateTool (expected_CreateToolOptions demoX (st_d fresh_state)))
            2%nat fresh_state)).
Proof.
  split; [reflexivity|].
  exact (proj2 (proj2 (proj2
    (Create_sends_request_then_sets_id (demo_meta good_client) good_client
       fresh_state eq_refl)))).
Defined.

(** Without a client Create returns the error of the session and calls
    nothing; and when [CreateTool] answers a tool without ID, Create panics
    with the resource ID as it was. *)
Lemma Create_without_client_calls_nothing :
  resourceIBMCdToolchainToolSecuritycomplianceCreate no_client fresh_state
    = (Returned (diag_FromErr "no credentials"), fresh_state) /\
  invocations CreateTool
    (st_calls (snd (resourceIBMCdToolchainToolSecuritycomplianceCreate
                      no_client fresh_state))) = 0%nat /\
  fst (resourceIBMCdToolchainToolSecuritycomplianceCreate
         (demo_meta anonymous_client) fresh_state)
    = Panicked "invalid memory address or nil pointer dereference" /\
  rd_Id (st_d (snd (resourceIBMCdToolchainToolSecuritycomplianceCreate
                      (demo_meta anonymous_client) fresh_state))) = "".
Proof. repeat split; vm_compute; reflexivity. Qed.

Lemma Read_mirrors_remote_tool_witness :
  let ran :=
    resourceIBMCdToolchainToolSecuritycomplianceRead (demo_meta good_client)
      (known_state ∅) in
  session_CdToolchainV2 (demo_meta good_client) = inr good_client /\
  id_parts demoX (st_d (known_state ∅)) = Some (demo_toolchain, demo_tool_id) /\
  GetToolByIDWithContext good_client
    (GetToolByIDOptions.mk (Some demo_toolchain) (Some demo_tool_id))
    (st_remote (known_state ∅))
    = (SdkOk (demo_tool (Some demo_referent)) (ok_response 200), 1%nat) /\
  ToolchainTool.Referent (demo_tool (Some demo_referent)) = Some demo_referent /\
  fst ran = Returned [] /\
  Forall (fun kv => rd_written (st_d (snd ran)) !! fst kv = Some (snd kv))
    (mirrored_fields demoX (demo_tool (Some demo_referent)) demo_referent).
Proof.
  cbv zeta. do 4 (split; [reflexivity|]).
  destruct (Read_mirrors_remote_tool (demo_meta good_client) good_client (known_state ∅)
              demo_toolchain demo_tool_id (demo_tool (Some demo_referent))
              (ok_response 200) 1%nat demo_referent
              eq_refl eq_refl eq_refl eq_refl) as (Hfst & Hall & _).
  split; [exact Hfst|exact Hall].
Defined.

(** When the tool that [GetToolByID] returns has no referent, Read panics
    after the first seven assignments: [referent], [updated_at], [state] and
    [tool_id] are not set, though [d.Set] refuses nothing. *)
Lemma Read_without_referent_panics :
  let ran :=
    resourceIBMCdToolchainToolSecuritycomplianceRead (demo_meta bare_client)
      (known_state ∅) in
  GetToolByIDWithContext bare_client
    (GetToolByIDOptions.mk (Some demo_toolchain) (Some demo_tool_id))
    (st_remote (known_state ∅))
    = (SdkOk (demo_tool None) (ok_response 200), 1%nat) /\
  fst ran = Panicked "invalid memory address or nil pointer dereference" /\
  rd_written (st_d (snd ran)) !! "href" = Some (AStringPtr (Some "https://api/tool")) /\
  rd_written (st_d (snd ran)) !! "referent" = None /\
  rd_written (st_d (snd ran)) !! "updated_at" = None /\
  rd_written (st_d (snd ran)) !! "state" = None /\
  rd_written (st_d (snd ran)) !! "tool_id" = None.
Proof. cbv zeta. repeat split; vm_compute; reflexivity. Qed.

Lemma Read_when_GetToolByID_fails_witness :
  let ran :=
    resourceIBMCdToolchainToolSecuritycomplianceRead (demo_meta (failing_client 404))
      (known_state ∅) in
  let ran' :=
    resourceIBMCdToolchainToolSecuritycomplianceRead (demo_meta (failing_client 500))
      (known_state ∅) in
  (session_CdToolchainV2 (demo_meta (failing_client 404)) = inr (failing_client 404) /\
   id_parts demoX (st_d (known_state ∅)) = Some (demo_toolchain, demo_tool_id) /\
   GetToolByIDWithContext (failing_client 404)
     (GetToolByIDOptions.mk (Some demo_toolchain) (Some demo_tool_id))
     (st_remote (known_state ∅))
     = (SdkErr (Some (ok_response 404)) "request failed", 1%nat)) /\
  (fst ran = Returned [] /\ rd_Id (st_d (snd ran)) = "") /\
  (fst ran' = Returned (diag_FromErr
                (failed demoX "GetToolByIDWithContext" "request failed"
                   (Some (ok_response 500)))) /\
   rd_Id (st_d (snd ran')) = demo_id).
Proof.
  cbv zeta. split; [repeat split; reflexivity|]. split.
  - exact (Read_when_GetToolByID_fails (demo_meta (failing_client 404))
             (failing_client 404) (known_state ∅) demo_toolchain demo_tool_id
             (Some (ok_response 404)) "request failed" 1%nat eq_refl eq_refl eq_refl).
  - destruct (Read_when_GetToolByID_fails (demo_meta (failing_client 500))
             (failing_client 500) (known_state ∅) demo_toolchain demo_tool_id
             (Some (ok_response 500)) "request failed" 1%nat eq_refl eq_refl eq_refl)
      as (H1 & _ & _ & H2).
    split; [exact H1|exact H2].
Defined.

Lemma Update_refuses_changed_toolchain_id_witness :
  session_CdToolchainV2 (demo_meta good_client) = inr good_client /\
  id_parts demoX (st_d (known_state {[ "toolchain_id" ]}))
    = Some (demo_toolchain, demo_tool_id) /\
  "toolchain_id" ∈ rd_changed (st_d (known_state {[ "toolchain_id" ]})) /\
  resourceIBMCdToolchainToolSecuritycomplianceUpdate (demo_meta good_client)
    (known_state {[ "toolchain_id" ]})
  = (Returned (diag_FromErr (forceNewError "toolchain_id")),
     known_state {[ "toolchain_id" ]}).
Proof.
  assert (Hin : "toolchain_id" ∈ rd_changed (st_d (known_state {[ "toolchain_id" ]}))).
  { apply (bool_decide_unpack _). vm_compute. exact I. }
  do 2 (split; [reflexivity|]). split; [exact Hin|].
  exact (proj1 (Update_refuses_changed_toolchain_id (demo_meta good_client) good_client
                  (known_state {[ "toolchain_id" ]}) demo_toolchain demo_tool_id
                  eq_refl eq_refl Hin)).
Defined.

(** Without a client, an Update in which [toolchain_id] has changed returns
    the error of the session, which is not the ForceNew error; so it does
    when the resource ID has no separator. *)
Lemma Update_without_client_returns_other_error :
  "toolchain_id" ∈ rd_changed (st_d (known_state {[ "toolchain_id" ]})) /\
  fst (resourceIBMCdToolchainToolSecuritycomplianceUpdate no_client
         (known_state {[ "toolchain_id" ]}))
    = Returned (diag_FromErr "no credentials") /\
  diag_FromErr "no credentials" <> diag_FromErr (forceNewError "toolchain_id") /\
  fst (resourceIBMCdToolchainToolSecuritycomplianceUpdate (demo_meta good_client)
         (demo_state (demo_d "9603dcd4" {[ "toolchain_id" ]})))
    = Returned (diag_FromErr "The given id 9603dcd4 does not contain /").
Proof.
  split; [apply (bool_decide_unpack _); vm_compute; exact I|].
  split; [vm_compute; reflexivity|]. split; [|vm_compute; reflexivity].
  vm_compute. discriminate.
Qed.

Lemma Delete_calls_DeleteTool_then_clears_id_witness :
  let ran :=
    resourceIBMCdToolchainToolSecuritycomplianceDelete (demo_meta good_client)
      (known_state ∅) in
  session_CdToolchainV2 (demo_meta good_client) = inr good_client /\
  id_parts demoX (st_d (known_state ∅)) = Some (demo_toolchain, demo_tool_id) /\
  st_calls (snd ran)
    = [CallDeleteTool (DeleteToolOptions.mk (Some demo_toolchain) (Some demo_tool_id))] /\
  fst ran = Returned [] /\ rd_Id (st_d (snd ran)) = "".
Proof.
  cbv zeta. do 2 (split; [reflexivity|]).
  destruct (Delete_calls_DeleteTool_then_clears_id (demo_meta good_client) good_client
              (known_state ∅) demo_toolchain demo_tool_id eq_refl eq_refl)
    as (Hcalls & _ & Hok).
  split; [exact Hcalls|exact Hok].
Defined.

(** Delete does not call [DeleteTool] when the resource ID has no separator,
    nor when the session yields no client. *)
Lemma Delete_without_parts_calls_nothing :
  resourceIBMCdToolchainToolSecuritycomplianceDelete (demo_meta good_client) unparsed_state
    = (Returned (diag_FromErr "The given id 9603dcd4 does not contain /"), unparsed_state) /\
  invocations DeleteTool
    (st_calls (snd (resourceIBMCdToolchainToolSecuritycomplianceDelete
                      (demo_meta good_client) unparsed_state))) = 0%nat /\
  resourceIBMCdToolchainToolSecuritycomplianceDelete no_client (known_state ∅)
    = (Returned (diag_FromErr "no credentials"), known_state ∅).
Proof. repeat split; vm_compute; reflexivity. Qed.

(** An Update in which nothing has changed does not call [UpdateTool]; it
    runs Read and returns no diagnostic. *)
Lemma Update_without_change_skips_UpdateTool :
  let ran :=
    resourceIBMCdToolchainToolSecuritycomplianceUpdate (demo_meta good_client)
      (known_state ∅) in
  fst ran = Returned [] /\
  invocations UpdateTool (st_calls (snd ran)) = 0%nat /\
  st_calls (snd ran)
    = [CallGetToolByID (GetToolByIDOptions.mk (Some demo_toolchain) (Some demo_tool_id))].
Proof. cbv zeta. repeat split; vm_compute; reflexivity. Qed.

Lemma Read_mapping_is_deterministic_witness :
  let ran1 :=
    resourceIBMCdToolchainToolSecuritycomplianceRead (demo_meta good_client)
      (known_state ∅) in
  let ran2 :=
    resourceIBMCdToolchainToolSecuritycomplianceRead (demo_meta good_client)
      other_state in
  (session_CdToolchainV2 (demo_meta good_client) = inr good_client /\
   id_parts demoX (st_d (known_state ∅)) = Some (demo_toolchain, demo_tool_id) /\
   id_parts demoX (st_d other_state) = Some (demo_toolchain, demo_tool_id) /\
   GetToolByIDWithContext good_client
     (GetToolByIDOptions.mk (Some demo_toolchain) (Some demo_tool_id))
     (st_remote (known_state ∅))
     = (SdkOk (demo_tool (Some demo_referent)) (ok_response 200), 1%nat) /\
   GetToolByIDWithContext good_client
     (GetToolByIDOptions.mk (Some demo_toolchain) (Some demo_tool_id))
     (st_remote other_state)
     = (SdkOk (demo_tool (Some demo_referent)) (ok_response 200), 7%nat)) /\
  fst ran1 = fst ran2 /\
  exists writes,
    rd_written (st_d (snd ran1))
      = rd_written (write_all writes (st_d (known_state ∅))) /\
    rd_written (st_d (snd ran2)) = rd_written (write_all writes (st_d other_state)) /\
    Forall (fun key => rd_written (st_d (snd ran1)) !! key
                       = rd_written (st_d (snd ran2)) !! key) (fst <$> writes).
Proof.
  cbv zeta. split; [repeat split; reflexivity|].
  destruct (Read_mapping_is_deterministic
    (demo_meta good_client) (demo_meta good_client) good_client good_client
    (known_state ∅) other_state demo_toolchain demo_tool_id demo_toolchain demo_tool_id
    (SdkOk (demo_tool (Some demo_referent)) (ok_response 200)) 1%nat 7%nat
    eq_refl eq_refl eq_refl eq_refl eq_refl eq_refl) as (Hresult & Hwrites & _).
  split; [exact Hresult|exact Hwrites].
Defined.

(** The converter reads [model.UIHref] before any test of [model]: at the nil
    pointer it panics, and returns neither a map nor a nil error. *)
Lemma ReferentToMap_nil_model_panics :
  resourceIBMCdToolchainToolSecuritycomplianceToolModelReferentToMap None fresh_state
  = (Panicked "invalid memory address or nil pointer dereference", fresh_state).
Proof. vm_compute. reflexivity. Qed.

(** * Properties of the two patterns of the validator table *)

Section Matching.

Implicit Types (s : string) (k : string -> bool) (p q : ascii -> bool).

Lemma one_char_ext p s k1 k2 :
  (forall rest, k1 rest = k2 rest) -> one_char p s k1 = one_char p s k2.
Proof. intros H. destruct s as [|c rest]; cbn; [done|]. by rewrite H. Qed.

Lemma conforms_then_ext (ps : list (ascii -> bool)) s k1 k2 :
  (forall rest, k1 rest = k2 rest) -> conforms_then ps s k1 = conforms_then ps s k2.
Proof.
  revert s. induction ps as [|p ps IH]; intros s H; cbn; [apply H|].
  apply one_char_ext. intros rest. by apply IH.
Qed.

Lemma conforms_then_app (ps qs : list (ascii -> bool)) s k :
  conforms_then (ps ++ qs) s k
  = conforms_then ps s (fun rest => conforms_then qs rest k).
Proof.
  revert s. induction ps as [|p ps IH]; intros s; cbn; [done|].
  apply one_char_ext. intros rest. apply IH.
Qed.

Lemma repeat_match_positions (ps : list (ascii -> bool))
    (m : string -> (string -> bool) -> bool) (n : nat) :
  (forall s k, m s k = conforms_then ps s k) ->
  forall s k, repeat_match n m s k = conforms_then (concat (repeat ps n)) s k.
Proof.
  intros Hm. induction n as [|n IH]; intros s k; cbn; [done|].
  rewrite conforms_then_app, Hm. apply conforms_then_ext. intros rest. apply IH.
Qed.

(** A pattern of fixed positions matches the strings that conform to them. *)
Lemma rmatch_positions (r : regexp) :
  forall ps, positions_of r = Some ps ->
  forall s k, rmatch r s k = conforms_then ps s k.
Proof.
  induction r as [| c | negated items | r1 IH1 r2 IH2 | r1 _ r2 _ | r _ | r _ | r _ | n r IH];
    intros ps Hps s k; cbn in Hps; try discriminate.
  - by injection Hps as <-.
  - by injection Hps as <-.
  - by injection Hps as <-.
  - destruct (positions_of r1) as [p1|]; [|discriminate].
    destruct (positions_of r2) as [p2|]; [|discriminate].
    injection Hps as <-. cbn. rewrite conforms_then_app, (IH1 p1 eq_refl).
    apply conforms_then_ext. intros rest. by apply IH2.
  - destruct (positions_of r) as [p|]; [|discriminate].
    injection Hps as <-. cbn. apply repeat_match_positions. by apply IH.
Qed.

Lemma conforms_then_at_end (ps : list (ascii -> bool)) s :
  conforms_then ps s at_end = conforms ps s.
Proof.
  revert s. induction ps as [|p ps IH]; intros [|c rest]; cbn; try done.
  rewrite IH. by destruct (p c).
Qed.

Lemma conforms_pointwise (ps qs : list (ascii -> bool)) :
  Forall2 (fun p q => forall c, p c = q c) ps qs ->
  forall s, conforms ps s = conforms qs s.
Proof.
  induction 1 as [|p q ps qs Hpq _ IH]; intros [|c rest]; cbn; try done.
  by rewrite Hpq, IH.
Qed.

Lemma conforms_length (ps : list (ascii -> bool)) s :
  conforms ps s = true -> String.length s = length ps.
Proof.
  revert s. induction ps as [|p ps IH]; intros [|c rest]; cbn; try done.
  intros H. apply andb_prop in H as [_ H]. by rewrite (IH rest H).
Qed.

Lemma all_chars_pointwise p q s :
  (forall c, p c = q c) -> all_chars p s = all_chars q s.
Proof. intros H. induction s as [|c rest IH]; cbn; [done|]. by rewrite H, IH. Qed.

(** Zero or more characters of one kind, up to the end of the string. *)
Lemma star_match_all_chars p (m : string -> (string -> bool) -> bool) :
  (forall s k, m s k = one_char p s k) ->
  forall s fuel, (String.length s <= fuel)%nat ->
  star_match fuel m s at_end = all_chars p s.
Proof.
  intros Hm. induction s as [|c rest IH]; intros fuel Hfuel.
  - by destruct fuel.
  - destruct fuel as [|fuel]; cbn in Hfuel; [lia|].
    cbn [star_match at_end all_chars]. rewrite Hm. cbn [one_char].
    destruct (p c); [|done]. cbn [andb String.length].
    rewrite (proj2 (Nat.ltb_lt _ _)) by lia. apply IH. lia.
Qed.

Lemma alternative_one_char p q s k :
  (if one_char p s k then true else one_char q s k)
  = one_char (fun c => p c || q c) s k.
Proof.
  destruct s as [|c rest]; cbn; [done|].
  destruct (p c), (q c), (k rest); reflexivity.
Qed.

End Matching.

(** The matcher on patterns other than the two of the table: alternatives
    are tried in turn, repetitions give back what they took, classes can
    be negated. *)
Example MatchString_backtracks :
  MatchString "^(a|ab)(c|bcd)$" "abcd" = true /\
  MatchString "^(ab|c)*d?$" "ababcd" = true /\
  MatchString "^(ab|c)*d?$" "abad" = false /\
  MatchString "^(a*)*$" "aaa" = true /\
  MatchString "^(a*)*$" "aab" = false /\
  MatchString "^a{2}[^b-d]$" "aae" = true /\
  MatchString "^a{2}[^b-d]$" "aac" = false /\
  MatchString "^a{2}[^b-d]$" "ae" = false.
Proof. repeat split; vm_compute; reflexivity. Qed.

(** The patterns of the table parse to the two expressions. *)
Lemma parse_toolchain_id_pattern :
  parse_regexp
    "^[a-fA-F0-9]{8}-[a-fA-F0-9]{4}-4[a-fA-F0-9]{3}-[89abAB][a-fA-F0-9]{3}-[a-fA-F0-9]{12}$"
  = Some uuid_v4_regexp.
Proof. vm_compute. reflexivity. Qed.

Lemma parse_name_pattern :
  parse_regexp "^([^\x00-\x7F]|[a-zA-Z0-9-._ ])+$" = Some name_regexp.
Proof. vm_compute. reflexivity. Qed.

Lemma hex_class_is_hex c :
  in_class false [ CRange "a" "f"; CRange "A" "F"; CRange "0" "9" ] c = is_hex c.
Proof.
  unfold in_class, is_hex. cbn [existsb in_item xorb].
  by rewrite orb_false_r, orb_assoc.
Qed.

Lemma variant_class_is_variant c :
  in_class false [ CChar "8"; CChar "9"; CChar "a"; CChar "b"; CChar "A"; CChar "B" ] c
  = is_variant c.
Proof.
  unfold in_class, is_variant. cbn [existsb in_item xorb]. unfold is_char.
  by rewrite !(Ascii.eqb_sym c).
Qed.

Lemma name_classes_are_name_char c :
  in_class true [ CRange "000" "127" ] c
  || in_class false [ CRange "a" "z"; CRange "A" "Z"; CRange "0" "9";
                      CChar "-"; CChar "."; CChar "_"; CChar " " ] c
  = name_char c.
Proof. destruct c as [[] [] [] [] [] [] [] []]; reflexivity. Qed.

Lemma uuid_v4_regexp_positions :
  exists ps,
    positions_of uuid_v4_regexp = Some ps /\
    Forall2 (fun p q => forall c, p c = q c) ps uuid_v4_positions.
Proof.
  eexists. split; [reflexivity|].
  cbn [uuid_v4_positions repeat app concat].
  repeat (apply Forall2_cons; split;
          [ first [ exact hex_class_is_hex | exact variant_class_is_variant
                  | intros c; reflexivity ] |]).
  apply Forall2_nil_2.
Qed.

Lemma MatchString_toolchain_id value :
  MatchString
    "^[a-fA-F0-9]{8}-[a-fA-F0-9]{4}-4[a-fA-F0-9]{3}-[89abAB][a-fA-F0-9]{3}-[a-fA-F0-9]{12}$"
    value
  = is_uuid_v4 value.
Proof.
  unfold MatchString. rewrite parse_toolchain_id_pattern.
  destruct uuid_v4_regexp_positions as (ps & Hps & Hpoint).
  rewrite (rmatch_positions _ _ Hps), conforms_then_at_end.
  by apply conforms_pointwise.
Qed.

Lemma MatchString_name value :
  MatchString "^([^\x00-\x7F]|[a-zA-Z0-9-._ ])+$" value
  = negb (at_end value) && all_chars name_char value.
Proof.
  unfold MatchString. rewrite parse_name_pattern. unfold name_regexp.
  cbn [rmatch]. rewrite alternative_one_char.
  destruct value as [|c rest]; [reflexivity|].
  cbn [one_char at_end negb andb all_chars].
  rewrite name_classes_are_name_char. destruct (name_char c); [|reflexivity].
  rewrite (star_match_all_chars
             (fun c => in_class true [ CRange "000" "127" ] c
                       || in_class false [ CRange "a" "z"; CRange "A" "Z"; CRange "0" "9";
                                           CChar "-"; CChar "."; CChar "_"; CChar " " ] c)).
  - apply all_chars_pointwise. exact name_classes_are_name_char.
  - intros s k. cbn [rmatch]. apply alternative_one_char.
  - lia.
Qed.

(** * Further properties of the handlers *)

Section MoreHandlerProperties.

Context {X : Externals}.

Implicit Types (s : St X) (meta : ClientSession (Remote X)) (d : ResourceData).

(** ** Before the SDK call *)

Lemma before_call_goes meta d client toolchainID toolID :
  before_call X meta d = inr (client, toolchainID, toolID) ->
  session_CdToolchainV2 meta = inr client /\
  id_parts X d = Some (toolchainID, toolID).
Proof.
  unfold before_call, id_parts.
  destruct (session_CdToolchainV2 meta) as [e|c]; [done|].
  destruct (SepIdParts X (rd_Id d) "/") as [e|parts]; [done|].
  destruct (parts !! 0%nat) as [a|]; [|done].
  destruct (parts !! 1%nat) as [b|]; [|done].
  by intros [= -> -> ->].
Qed.

Lemma Read_stops_before_call meta s r :
  before_call X meta (st_d s) = inl r ->
  resourceIBMCdToolchainToolSecuritycomplianceRead meta s = (r, s).
Proof.
  unfold before_call, resourceIBMCdToolchainToolSecuritycomplianceRead.
  destruct (session_CdToolchainV2 meta) as [e|c]; [by intros [= <-]|].
  run. destruct (SepIdParts X (rd_Id (st_d s)) "/") as [e|parts]; [by intros [= <-]|].
  run. destruct (parts !! 0%nat) as [a|]; [|by intros [= <-]].
  run. destruct (parts !! 1%nat) as [b|]; [done|by intros [= <-]].
Qed.

Lemma Update_stops_before_call meta s r :
  before_call X meta (st_d s) = inl r ->
  resourceIBMCdToolchainToolSecuritycomplianceUpdate meta s = (r, s).
Proof.
  unfold before_call, resourceIBMCdToolchainToolSecuritycomplianceUpdate.
  destruct (session_CdToolchainV2 meta) as [e|c]; [by intros [= <-]|].
  run. destruct (SepIdParts X (rd_Id (st_d s)) "/") as [e|parts]; [by intros [= <-]|].
  run. destruct (parts !! 0%nat) as [a|]; [|by intros [= <-]].
  run. destruct (parts !! 1%nat) as [b|]; [done|by intros [= <-]].
Qed.

Lemma Delete_stops_before_call meta s r :
  before_call X meta (st_d s) = inl r ->
  resourceIBMCdToolchainToolSecuritycomplianceDelete meta s = (r, s).
Proof.
  unfold before_call, resourceIBMCdToolchainToolSecuritycomplianceDelete.
  destruct (session_CdToolchainV2 meta) as [e|c]; [by intros [= <-]|].
  run. destruct (SepIdParts X (rd_Id (st_d s)) "/") as [e|parts]; [by intros [= <-]|].
  run. destruct (parts !! 0%nat) as [a|]; [|by intros [= <-]].
  run. destruct (parts !! 1%nat) as [b|]; [done|by intros [= <-]].
Qed.

Lemma before_call_one_error meta d r :
  before_call X meta d = inl r -> one_error_at_most r /\ r <> Returned [].
Proof.
  unfold before_call.
  destruct (session_CdToolchainV2 meta) as [e|c].
  { intros [= <-]. split; [right; by exists e|done]. }
  destruct (SepIdParts X (rd_Id d) "/") as [e|parts].
  { intros [= <-]. split; [right; by exists e|done]. }
  destruct (parts !! 0%nat) as [a|]; [|by intros [= <-]].
  destruct (parts !! 1%nat) as [b|]; [done|by intros [= <-]].
Qed.

(** ** What is left alone *)

Lemma keeps_plan_refl s : keeps_plan s s.
Proof. by repeat split. Qed.

Lemma keeps_plan_trans s1 s2 s3 :
  keeps_plan s1 s2 -> keeps_plan s2 s3 -> keeps_plan s1 s3.
Proof.
  intros (Hv & Hp & Hc & Hcalls & Hlog & Hr) (Hv' & Hp' & Hc' & Hcalls' & Hlog' & Hr').
  repeat split; try congruence; try (by etrans).
  intros Hlen. apply prefix_length in Hcalls, Hcalls'.
  rewrite Hr', Hr; [done|lia|lia].
Qed.

Lemma write_all_plan writes d :
  rd_values (write_all writes d) = rd_values d /\
  rd_parameters (write_all writes d) = rd_parameters d /\
  rd_changed (write_all writes d) = rd_changed d.
Proof.
  revert d. induction writes as [|[k v] ws IH]; intros d; [done|].
  rewrite write_all_cons. destruct (IH (rd_write k v d)) as (-> & -> & ->). done.
Qed.

Lemma keeps_plan_write_all writes s : keeps_plan s (with_d (write_all writes) s).
Proof.
  destruct (write_all_plan writes (st_d s)) as (Hv & Hp & Hc).
  by repeat split.
Qed.

Lemma keeps_plan_with_Id v s : keeps_plan s (with_d (rd_with_Id v) s).
Proof. by repeat split. Qed.

Lemma keeps_plan_after_call c remote' s : keeps_plan s (after_call c remote' s).
Proof.
  repeat split; cbn; try done.
  - by apply prefix_app_r.
  - rewrite length_app. cbn. lia.
Qed.

Lemma keeps_plan_after_log line s : keeps_plan s (after_log line s).
Proof. repeat split; cbn; try done. by apply prefix_app_r. Qed.

Lemma writes_only_refl names s : writes_only names s s.
Proof. by intros key _. Qed.

Lemma writes_only_trans names s1 s2 s3 :
  writes_only names s1 s2 -> writes_only names s2 s3 -> writes_only names s1 s3.
Proof. intros H1 H2 key Hk. by rewrite H2, H1. Qed.

Lemma writes_only_write_all names writes s :
  Forall (fun kv => fst kv ∈ names) writes ->
  writes_only names s (with_d (write_all writes) s).
Proof.
  intros Hall key Hk. cbn. apply write_all_lookup_other.
  intros Hin. apply list_elem_of_fmap in Hin as ([k v] & -> & Hin).
  rewrite Forall_forall in Hall. by apply Hk, (Hall (k, v)).
Qed.

(** ** The assignments of Read, once more *)

Lemma assigns_within_ret names : assigns_within (X:=X) names (ret []).
Proof.
  exists (Returned []), []. split; [intros s; by destruct s|].
  split; [constructor|by left].
Qed.

Lemma assigns_within_panic names why : assigns_within (X:=X) names (panic why).
Proof.
  exists (Panicked why), []. split; [intros s; by destruct s|].
  split; [constructor|done].
Qed.

Lemma assigns_within_set names key value (rest : M X Diagnostics) :
  key ∈ names -> assigns_within names rest ->
  assigns_within names (set_or_return key value rest).
Proof.
  intros Hkey (r & ws & H & Hall & Hr).
  destruct (Set_error X key value) as [e|] eqn:E.
  - exists (Returned (diag_FromErr ("Error setting " +:+ key +:+ ": " +:+ e))), [].
    split; [|split; [constructor|right; by eexists]].
    intros s. rewrite set_or_return_run, E. by destruct s.
  - exists r, ((key, value) :: ws). split; [|split; [by constructor|done]].
    intros s. rewrite set_or_return_run, E, H. reflexivity.
Qed.

Lemma declared_attributes_eq :
  declared_attributes =
  list_to_set [ "toolchain_id"; "parameters"; "name"; "resource_group_id"; "crn";
                "toolchain_crn"; "href"; "referent"; "updated_at"; "state"; "tool_id" ].
Proof.
  unfold declared_attributes, ResourceIBMCdToolchainToolSecuritycompliance.
  cbn [resource_Schema]. rewrite !dom_insert_L, dom_empty_L. cbn [list_to_set].
  reflexivity.
Qed.

Lemma Read_setFields_assigns_within (tool : ToolchainTool.t) :
  assigns_within (X:=X) declared_attributes (Read_setFields tool).
Proof.
  rewrite declared_attributes_eq.
  unfold Read_setFields.
  do 7 (apply assigns_within_set; [set_solver|]).
  destruct (ToolchainTool.Referent tool) as [referent|].
  - destruct (assigns_within_set
               (list_to_set [ "toolchain_id"; "parameters"; "name"; "resource_group_id";
                              "crn"; "toolchain_crn"; "href"; "referent"; "updated_at";
                              "state"; "tool_id" ])
               "referent" (AList [AMap (referent_map referent)])
               (set_or_return "updated_at"
                  (AString (DateTimeToString X (ToolchainTool.UpdatedAt tool)))
               (set_or_return "state" (AStringPtr (ToolchainTool.State tool))
               (set_or_return "tool_id" (AStringPtr (ToolchainTool.ID tool)) (ret [])))))
      as (r & ws & H & Hall & Hr).
    { set_solver. }
    { do 3 (apply assigns_within_set; [set_solver|]). apply assigns_within_ret. }
    exists r, ws. split; [|done]. intros s. unfold bind. rewrite ReferentToMap_run. apply H.
  - apply (assigns_within_panic _ "invalid memory address or nil pointer dereference").
Qed.

(** ** The ways through Read *)

(** Read stops before its call, or makes it and then either assigns the
    fields it received, or clears the ID on a 404, or reports the error. *)
Lemma Read_paths meta s :
  (exists r, before_call X meta (st_d s) = inl r /\
     resourceIBMCdToolchainToolSecuritycomplianceRead meta s = (r, s)) \/
  (exists client toolchainID toolID,
     session_CdToolchainV2 meta = inr client /\
     id_parts X (st_d s) = Some (toolchainID, toolID) /\
     let opts := GetToolByIDOptions.mk (Some toolchainID) (Some toolID) in
     let called := GetToolByIDWithContext client opts (st_remote s) in
     let s1 := after_call (CallGetToolByID opts) (snd called) s in
     match fst called with
     | SdkOk tool _ =>
       resourceIBMCdToolchainToolSecuritycomplianceRead meta s = Read_setFields tool s1
     | SdkErr response err =>
       if is_not_found response
       then resourceIBMCdToolchainToolSecuritycomplianceRead meta s
            = (Returned [], with_d (rd_with_Id "") s1)
       else resourceIBMCdToolchainToolSecuritycomplianceRead meta s
            = (Returned (diag_FromErr (failed X "GetToolByIDWithContext" err response)),
               after_log ("[DEBUG] " +:+ failed X "GetToolByIDWithContext" err response) s1)
     end).
Proof.
  destruct (before_call X meta (st_d s)) as [r|[[client tc] tl]] eqn:E.
  - left. exists r. split; [done|]. by apply Read_stops_before_call.
  - right. apply before_call_goes in E as [Hc Hid]. exists client, tc, tl.
    split; [done|]. split; [done|]. cbv zeta.
    rewrite (Read_run _ _ _ _ _ Hc Hid). cbv zeta.
    destruct (GetToolByIDWithContext client _ (st_remote s)) as [[tool resp|resp err] remote'];
      cbn [fst snd]; [done|].
    by destruct (is_not_found resp).
Qed.

Lemma Read_keeps_plan meta s :
  keeps_plan s (snd (resourceIBMCdToolchainToolSecuritycomplianceRead meta s)).
Proof.
  destruct (Read_paths meta s) as [(r & _ & ->)|(client & tc & tl & _ & _ & H)].
  { apply keeps_plan_refl. }
  cbv zeta in H.
  destruct (GetToolByIDWithContext client _ (st_remote s)) as [[tool resp|resp err] remote'];
    cbn [fst snd] in H.
  - rewrite H. destruct (Read_setFields_state_independent (X:=X) tool) as (r & ws & ->).
    cbn [snd]. eapply keeps_plan_trans; [apply keeps_plan_after_call|].
    apply keeps_plan_write_all.
  - destruct (is_not_found resp); rewrite H; cbn [snd];
      (eapply keeps_plan_trans; [apply keeps_plan_after_call|]).
    + apply keeps_plan_with_Id.
    + apply keeps_plan_after_log.
Qed.

Lemma Read_writes_only meta s :
  writes_only declared_attributes s
    (snd (resourceIBMCdToolchainToolSecuritycomplianceRead meta s)).
Proof.
  destruct (Read_paths meta s) as [(r & _ & ->)|(client & tc & tl & _ & _ & H)].
  { apply writes_only_refl. }
  cbv zeta in H.
  destruct (GetToolByIDWithContext client _ (st_remote s)) as [[tool resp|resp err] remote'];
    cbn [fst snd] in H.
  - rewrite H. destruct (Read_setFields_assigns_within tool) as (r & ws & -> & Hall & _).
    cbn [snd]. intros key Hk. cbn. apply write_all_lookup_other.
    intros Hin. apply list_elem_of_fmap in Hin as ([k v] & -> & Hin).
    rewrite Forall_forall in Hall. by apply Hk, (Hall (k, v)).
  - destruct (is_not_found resp); rewrite H; by intros key _.
Qed.

Lemma Read_one_error meta s :
  one_error_at_most (fst (resourceIBMCdToolchainToolSecuritycomplianceRead meta s)).
Proof.
  destruct (Read_paths meta s) as [(r & Hr & ->)|(client & tc & tl & _ & _ & H)].
  { by apply before_call_one_error in Hr as [Hr _]. }
  cbv zeta in H.
  destruct (GetToolByIDWithContext client _ (st_remote s)) as [[tool resp|resp err] remote'];
    cbn [fst snd] in H.
  - rewrite H. by destruct (Read_setFields_assigns_within tool) as (r & ws & -> & _ & Hr).
  - destruct (is_not_found resp); rewrite H; cbn; [by left|right; by eexists].
Qed.

(** Read leaves the resource ID as it was, or empties it and returns no
    diagnostic. *)
Lemma Read_Id meta s :
  let ran := resourceIBMCdToolchainToolSecuritycomplianceRead meta s in
  rd_Id (st_d (snd ran)) = rd_Id (st_d s) \/
  (rd_Id (st_d (snd ran)) = "" /\ fst ran = Returned []).
Proof.
  cbv zeta.
  destruct (Read_paths meta s) as [(r & _ & ->)|(client & tc & tl & _ & _ & H)].
  { by left. }
  cbv zeta in H.
  destruct (GetToolByIDWithContext client _ (st_remote s)) as [[tool resp|resp err] remote'];
    cbn [fst snd] in H.
  - rewrite H. destruct (Read_setFields_state_independent (X:=X) tool) as (r & ws & ->).
    left. cbn. apply write_all_Id.
  - destruct (is_not_found resp); rewrite H; [by right|by left].
Qed.

(** ** What every run respects *)

Lemma behaves_stop names s (r : outcome Diagnostics) :
  one_error_at_most r -> behaves names s (r, s).
Proof.
  intros Hr. split; [apply keeps_plan_refl|]. split; [apply writes_only_refl|done].
Qed.

Lemma behaves_after names s s1 (ran : outcome Diagnostics * St X) :
  keeps_plan s s1 -> writes_only names s s1 -> behaves names s1 ran ->
  behaves names s ran.
Proof.
  intros Hk Hw (Hk' & Hw' & Hr). split; [by eapply keeps_plan_trans|].
  split; [by eapply writes_only_trans|done].
Qed.

Lemma Read_behaves meta s :
  behaves declared_attributes s (resourceIBMCdToolchainToolSecuritycomplianceRead meta s).
Proof.
  split; [apply Read_keeps_plan|]. split; [apply Read_writes_only|apply Read_one_error].
Qed.

Lemma Create_stops_without_client meta s err :
  session_CdToolchainV2 meta = inl err ->
  resourceIBMCdToolchainToolSecuritycomplianceCreate meta s
  = (Returned (diag_FromErr err), s).
Proof.
  intros H. unfold resourceIBMCdToolchainToolSecuritycomplianceCreate. by rewrite H.
Qed.

Lemma Create_behaves meta s :
  behaves declared_attributes s
    (resourceIBMCdToolchainToolSecuritycomplianceCreate meta s).
Proof.
  destruct (session_CdToolchainV2 meta) as [e|client] eqn:Hc.
  { rewrite (Create_stops_without_client _ _ _ Hc). apply behaves_stop. right. by eexists. }
  rewrite (Create_run _ _ _ Hc). cbv zeta.
  destruct (CreateToolWithContext client _ (st_remote s)) as [[post resp|resp err] remote'];
    cbn [fst snd].
  - destruct (ToolchainToolPost.ID post) as [toolID|].
    + eapply behaves_after; [| |apply Read_behaves].
      * eapply keeps_plan_trans; [apply keeps_plan_after_call|apply keeps_plan_with_Id].
      * by intros key _.
    + eapply behaves_after; [apply keeps_plan_after_call|by intros key _|].
      by apply behaves_stop.
  - eapply behaves_after; [apply keeps_plan_after_call|by intros key _|].
    eapply behaves_after; [apply keeps_plan_after_log|by intros key _|].
    apply behaves_stop. right. by eexists.
Qed.

Lemma Update_behaves meta s :
  behaves declared_attributes s
    (resourceIBMCdToolchainToolSecuritycomplianceUpdate meta s).
Proof.
  destruct (before_call X meta (st_d s)) as [r|[[client tc] tl]] eqn:E.
  { rewrite (Update_stops_before_call _ _ _ E). apply behaves_stop.
    by apply before_call_one_error in E as [E _]. }
  apply before_call_goes in E as [Hc Hid].
  rewrite (Update_run _ _ _ _ _ Hc Hid). cbv zeta.
  destruct (bool_decide ("toolchain_id" ∈ rd_changed (st_d s))).
  { apply behaves_stop. right. by eexists. }
  destruct (update_has_change (st_d s)); [|apply Read_behaves].
  destruct (UpdateToolWithContext client _ (st_remote s)) as [[res resp|resp err] remote'];
    cbn [fst snd].
  - eapply behaves_after; [apply keeps_plan_after_call|by intros key _|apply Read_behaves].
  - eapply behaves_after; [apply keeps_plan_after_call|by intros key _|].
    eapply behaves_after; [apply keeps_plan_after_log|by intros key _|].
    apply behaves_stop. right. by eexists.
Qed.

Lemma Delete_paths meta s :
  (exists r, before_call X meta (st_d s) = inl r /\
     resourceIBMCdToolchainToolSecuritycomplianceDelete meta s = (r, s)) \/
  (exists client toolchainID toolID,
     session_CdToolchainV2 meta = inr client /\
     id_parts X (st_d s) = Some (toolchainID, toolID) /\
     let opts := DeleteToolOptions.mk (Some toolchainID) (Some toolID) in
     let called := DeleteToolWithContext client opts (st_remote s) in
     let s1 := after_call (CallDeleteTool opts) (snd called) s in
     resourceIBMCdToolchainToolSecuritycomplianceDelete meta s =
     match fst called with
     | SdkOk _ _ => (Returned [], with_d (rd_with_Id "") s1)
     | SdkErr response err =>
       (Returned (diag_FromErr (failed X "DeleteToolWithContext" err response)),
        after_log ("[DEBUG] " +:+ failed X "DeleteToolWithContext" err response) s1)
     end).
Proof.
  destruct (before_call X meta (st_d s)) as [r|[[client tc] tl]] eqn:E.
  - left. exists r. split; [done|]. by apply Delete_stops_before_call.
  - right. apply before_call_goes in E as [Hc Hid]. exists client, tc, tl.
    split; [done|]. split; [done|]. apply (Delete_run _ _ _ _ _ Hc Hid).
Qed.

Lemma Delete_behaves meta s :
  behaves ∅ s (resourceIBMCdToolchainToolSecuritycomplianceDelete meta s).
Proof.
  destruct (Delete_paths meta s) as [(r & Hr & ->)|(client & tc & tl & _ & _ & H)].
  { apply behaves_stop. by apply before_call_one_error in Hr as [Hr _]. }
  cbv zeta in H. rewrite H.
  destruct (DeleteToolWithContext client _ (st_remote s)) as [[res resp|resp err] remote'];
    cbn [fst snd].
  - eapply behaves_after; [apply keeps_plan_after_call|by intros key _|].
    eapply behaves_after; [apply keeps_plan_with_Id|by intros key _|].
    apply behaves_stop. by left.
  - eapply behaves_after; [apply keeps_plan_after_call|by intros key _|].
    eapply behaves_after; [apply keeps_plan_after_log|by intros key _|].
    apply behaves_stop. right. by eexists.
Qed.

(** X2. Create, Read and Update write to no attribute other than the
    eleven that the schema declares, and Delete writes to none at all. *)
Theorem handlers_write_declared_attributes_only meta s :
  declared_attributes =
    list_to_set [ "toolchain_id"; "parameters"; "name"; "resource_group_id"; "crn";
                  "toolchain_crn"; "href"; "referent"; "updated_at"; "state"; "tool_id" ] /\
  writes_only declared_attributes s
    (snd (resourceIBMCdToolchainToolSecuritycomplianceCreate meta s)) /\
  writes_only declared_attributes s
    (snd (resourceIBMCdToolchainToolSecuritycomplianceRead meta s)) /\
  writes_only declared_attributes s
    (snd (resourceIBMCdToolchainToolSecuritycomplianceUpdate meta s)) /\
  rd_written (st_d (snd (resourceIBMCdToolchainToolSecuritycomplianceDelete meta s)))
    = rd_written (st_d s).
Proof.
  split; [apply declared_attributes_eq|].
  split; [apply Create_behaves|]. split; [apply Read_writes_only|].
  split; [apply Update_behaves|].
  destruct (Delete_behaves meta s) as (_ & Hw & _).
  apply map_eq. intros key. apply Hw. set_solver.
Qed.

(** X3. Whenever a handler returns, it hands back no diagnostic or
    exactly one, of severity Error. *)
Theorem handlers_return_one_error_at_most meta s :
  one_error_at_most (fst (resourceIBMCdToolchainToolSecuritycomplianceCreate meta s)) /\
  one_error_at_most (fst (resourceIBMCdToolchainToolSecuritycomplianceRead meta s)) /\
  one_error_at_most (fst (resourceIBMCdToolchainToolSecuritycomplianceUpdate meta s)) /\
  one_error_at_most (fst (resourceIBMCdToolchainToolSecuritycomplianceDelete meta s)).
Proof.
  split; [apply Create_behaves|]. split; [apply Read_one_error|].
  split; [apply Update_behaves|apply Delete_behaves].
Qed.

(** ** Errors before the SDK call *)

(** X4. When the session gives an error instead of the client, each of the
    four handlers returns that error as its one diagnostic and changes
    nothing. *)
Theorem session_error_is_returned_unchanged meta s err :
  session_CdToolchainV2 meta = inl err ->
  resourceIBMCdToolchainToolSecuritycomplianceCreate meta s
    = (Returned (diag_FromErr err), s) /\
  resourceIBMCdToolchainToolSecuritycomplianceRead meta s
    = (Returned (diag_FromErr err), s) /\
  resourceIBMCdToolchainToolSecuritycomplianceUpdate meta s
    = (Returned (diag_FromErr err), s) /\
  resourceIBMCdToolchainToolSecuritycomplianceDelete meta s
    = (Returned (diag_FromErr err), s).
Proof.
  intros H.
  assert (E : before_call X meta (st_d s) = inl (Returned (diag_FromErr err))).
  { unfold before_call. by rewrite H. }
  split; [by apply Create_stops_without_client|].
  split; [by apply Read_stops_before_call|].
  split; [by apply Update_stops_before_call|by apply Delete_stops_before_call].
Qed.

(** X5. When [flex.SepIdParts] refuses the resource ID, Read, Update and
    Delete return its error as their one diagnostic and change nothing;
    Update does so even when attributes have changed. *)
Theorem SepIdParts_error_is_returned_unchanged meta client s err :
  session_CdToolchainV2 meta = inr client ->
  SepIdParts X (rd_Id (st_d s)) "/" = inl err ->
  resourceIBMCdToolchainToolSecuritycomplianceRead meta s
    = (Returned (diag_FromErr err), s) /\
  resourceIBMCdToolchainToolSecuritycomplianceUpdate meta s
    = (Returned (diag_FromErr err), s) /\
  resourceIBMCdToolchainToolSecuritycomplianceDelete meta s
    = (Returned (diag_FromErr err), s).
Proof.
  intros Hc H.
  assert (E : before_call X meta (st_d s) = inl (Returned (diag_FromErr err))).
  { unfold before_call. by rewrite Hc, H. }
  split; [by apply Read_stops_before_call|].
  split; [by apply Update_stops_before_call|by apply Delete_stops_before_call].
Qed.

(** X6. When [flex.SepIdParts] hands back fewer than two parts, Read, Update
    and Delete panic on indexing them, before any SDK call and with
    nothing changed: the handlers rely on two parts being there. *)
Theorem fewer_than_two_parts_panics meta client s parts :
  session_CdToolchainV2 meta = inr client ->
  SepIdParts X (rd_Id (st_d s)) "/" = inr parts ->
  (length parts < 2)%nat ->
  resourceIBMCdToolchainToolSecuritycomplianceRead meta s
    = (Panicked "index out of range", s) /\
  resourceIBMCdToolchainToolSecuritycomplianceUpdate meta s
    = (Panicked "index out of range", s) /\
  resourceIBMCdToolchainToolSecuritycomplianceDelete meta s
    = (Panicked "index out of range", s).
Proof.
  intros Hc H Hlen.
  assert (E : before_call X meta (st_d s) = inl (Panicked "index out of range")).
  { unfold before_call. rewrite Hc, H.
    destruct parts as [|a [|b rest]]; cbn in Hlen |- *; [done|done|lia]. }
  split; [by apply Read_stops_before_call|].
  split; [by apply Update_stops_before_call|by apply Delete_stops_before_call].
Qed.

(** ** Create *)

(** X7. When [CreateTool] fails, Create returns one error diagnostic made of
    the SDK's error and response, leaves [d] as it was (the resource ID is
    not set), and does not go on to Read: [CreateTool] is its only call. *)
Theorem Create_failure_leaves_d meta client s response err remote' :
  session_CdToolchainV2 meta = inr client ->
  CreateToolWithContext client (expected_CreateToolOptions X (st_d s)) (st_remote s)
    = (SdkErr response err, remote') ->
  let ran := resourceIBMCdToolchainToolSecuritycomplianceCreate meta s in
  fst ran = Returned (diag_FromErr (failed X "CreateToolWithContext" err response)) /\
  st_d (snd ran) = st_d s /\
  st_calls (snd ran)
    = (st_calls s ++ [CallCreateTool (expected_CreateToolOptions X (st_d s))])%list /\
  st_remote (snd ran) = remote'.
Proof.
  intros Hc Hcall. cbv zeta. rewrite (Create_run _ _ _ Hc). cbv zeta.
  rewrite Hcall. done.
Qed.

(** X8. When [CreateTool] succeeds with a tool ID and [flex.SepIdParts]
    separates ["<toolchain_id>/<tool ID>"] into these two parts, Create
    makes two SDK calls, [CreateTool] and then [GetToolByID] for the very
    tool just created in the toolchain of [d]; the resource ID ends as the
    new one, or empty when that tool is already gone. *)
Theorem Create_reads_back_the_created_tool meta client s
    (post : ToolchainToolPost.t) response remote' toolID :
  session_CdToolchainV2 meta = inr client ->
  CreateToolWithContext client (expected_CreateToolOptions X (st_d s)) (st_remote s)
    = (SdkOk post response, remote') ->
  ToolchainToolPost.ID post = Some toolID ->
  let toolchainID := default "" (rd_values (st_d s) !! "toolchain_id") in
  let id := toolchainID +:+ "/" +:+ toolID in
  id_parts X (rd_with_Id id (st_d s)) = Some (toolchainID, toolID) ->
  let ran := resourceIBMCdToolchainToolSecuritycomplianceCreate meta s in
  st_calls (snd ran)
    = (st_calls s ++
       [ CallCreateTool (expected_CreateToolOptions X (st_d s));
         CallGetToolByID (GetToolByIDOptions.mk (Some toolchainID) (Some toolID)) ])%list /\
  (rd_Id (st_d (snd ran)) = id \/
   (rd_Id (st_d (snd ran)) = "" /\ fst ran = Returned [])).
Proof.
  intros Hc Hcall Hid. cbv zeta. intros Hparts.
  rewrite (Create_run _ _ _ Hc). cbv zeta. rewrite Hcall. cbn [fst snd]. rewrite Hid.
  match goal with |- context [resourceIBMCdToolchainToolSecuritycomplianceRead meta ?t] =>
    set (s1 := t) end.
  assert (Hparts1 : id_parts X (st_d s1) = Some
            (default "" (rd_values (st_d s) !! "toolchain_id"), toolID)) by exact Hparts.
  split.
  - rewrite (Read_run meta client s1 _ _ Hc Hparts1). cbv zeta.
    destruct (GetToolByIDWithContext client _ (st_remote s1))
      as [[tool resp|resp e] remote''] eqn:E; cbn [fst snd].
    + destruct (Read_setFields_state_independent (X:=X) tool) as (r & ws & ->).
      cbn. by rewrite <- app_assoc.
    + destruct (is_not_found resp); cbn; by rewrite <- app_assoc.
  - apply (Read_Id meta s1).
Qed.

(** ** Update *)

(** X9. An Update in which neither [toolchain_id] nor [parameters] nor [name]
    has changed is a Read: same result, same state, whatever they are. *)
Theorem Update_without_changes_is_Read meta s :
  "toolchain_id" ∉ rd_changed (st_d s) ->
  "parameters" ∉ rd_changed (st_d s) ->
  "name" ∉ rd_changed (st_d s) ->
  resourceIBMCdToolchainToolSecuritycomplianceUpdate meta s
  = resourceIBMCdToolchainToolSecuritycomplianceRead meta s.
Proof.
  intros H1 H2 H3.
  destruct (before_call X meta (st_d s)) as [r|[[client tc] tl]] eqn:E.
  { by rewrite (Update_stops_before_call _ _ _ E), (Read_stops_before_call _ _ _ E). }
  apply before_call_goes in E as [Hc Hid].
  rewrite (Update_run _ _ _ _ _ Hc Hid). cbv zeta. unfold update_has_change.
  by rewrite !bool_decide_eq_false_2.
Qed.

(** X10. When [toolchain_id] is unchanged and [parameters] or [name] has
    changed, Update calls [UpdateTool] first, for the toolchain and tool of
    the resource ID, with the patch made of the changed parts alone: the new
    parameters if [parameters] changed, the new name if [name] changed, and
    never a tool type.  If the call fails Update returns one error
    diagnostic, leaves [d] as it was and does not run Read; if it succeeds
    Update goes on as Read does. *)
Theorem Update_sends_the_changed_parts meta client s toolchainID toolID :
  session_CdToolchainV2 meta = inr client ->
  id_parts X (st_d s) = Some (toolchainID, toolID) ->
  "toolchain_id" ∉ rd_changed (st_d s) ->
  "parameters" ∈ rd_changed (st_d s) \/ "name" ∈ rd_changed (st_d s) ->
  let patch := expected_patch X (st_d s) in
  let opts := UpdateToolOptions.mk (Some toolchainID) (Some toolID) (AsPatch X patch) in
  let called := UpdateToolWithContext client opts (st_remote s) in
  let s1 := after_call (CallUpdateTool opts) (snd called) s in
  let ran := resourceIBMCdToolchainToolSecuritycomplianceUpdate meta s in
  ToolchainToolPrototypePatch.ToolTypeID patch = None /\
  (ToolchainToolPrototypePatch.Name patch <> None <-> "name" ∈ rd_changed (st_d s)) /\
  (exists rest, st_calls (snd ran) = (st_calls s ++ CallUpdateTool opts :: rest)%list) /\
  match fst called with
  | SdkOk _ _ => ran = resourceIBMCdToolchainToolSecuritycomplianceRead meta s1
  | SdkErr response err =>
    fst ran = Returned (diag_FromErr (failed X "UpdateToolWithContext" err response)) /\
    st_d (snd ran) = st_d s /\
    st_calls (snd ran) = (st_calls s ++ [CallUpdateTool opts])%list
  end.
Proof.
  intros Hc Hid Htc Hch. cbv zeta.
  split; [reflexivity|]. split.
  { unfold expected_patch. cbn. case_bool_decide; split; done. }
  rewrite (Update_run _ _ _ _ _ Hc Hid). cbv zeta.
  rewrite (bool_decide_eq_false_2 _ Htc).
  assert (update_has_change (st_d s) = true) as ->.
  { unfold update_has_change. destruct Hch as [H|H];
      rewrite (bool_decide_eq_true_2 _ H); [done|apply orb_true_r]. }
  destruct (UpdateToolWithContext client _ (st_remote s)) as [[res resp|resp err] remote'];
    cbn [fst snd].
  - split; [|done].
    match goal with |- context [resourceIBMCdToolchainToolSecuritycomplianceRead meta ?s1] =>
      destruct (Read_calls meta s1) as (new & -> & _) end.
    exists new. cbn. by rewrite <- app_assoc.
  - split; [by exists []|done].
Qed.

(** ** Delete *)

(** X11. Delete returns no diagnostic only after a [DeleteTool] call that
    succeeded, its one SDK call, and then the resource ID is empty; in every
    other run it leaves [d] as it was. *)
Theorem Delete_reports_success_only_after_DeleteTool meta s :
  let ran := resourceIBMCdToolchainToolSecuritycomplianceDelete meta s in
  (fst ran = Returned [] /\ rd_Id (st_d (snd ran)) = "" /\
   exists client opts response,
     session_CdToolchainV2 meta = inr client /\
     fst (DeleteToolWithContext client opts (st_remote s)) = SdkOk tt response /\
     st_calls (snd ran) = (st_calls s ++ [CallDeleteTool opts])%list) \/
  (fst ran <> Returned [] /\ st_d (snd ran) = st_d s).
Proof.
  cbv zeta.
  destruct (Delete_paths meta s) as [(r & Hr & ->)|(client & tc & tl & Hc & _ & H)].
  { right. by apply before_call_one_error in Hr as [_ Hr]. }
  cbv zeta in H. rewrite H.
  destruct (DeleteToolWithContext client _ (st_remote s)) as [[[] resp|resp err] remote'] eqn:E;
    cbn [fst snd].
  - left. split; [done|]. split; [done|].
    exists client, (DeleteToolOptions.mk (Some tc) (Some tl)), resp. by rewrite E.
  - right. done.
Qed.

(** ** The referent converter, once more *)

(** X12. The converter never stores a nil pointer: every value of its map is a
    pointer to a string.  Given no model at all it panics, with the state
    as it was. *)
Theorem ReferentToMap_stores_no_nil (model : ToolModelReferent.t) s :
  (exists modelMap,
     resourceIBMCdToolchainToolSecuritycomplianceToolModelReferentToMap (Some model) s
       = (Returned (modelMap, None), s) /\
     map_Forall (fun _ value => is_string_pointer value = true) modelMap) /\
  resourceIBMCdToolchainToolSecuritycomplianceToolModelReferentToMap None s
    = (Panicked "invalid memory address or nil pointer dereference", s).
Proof.
  split; [|reflexivity].
  exists (referent_map model). split; [apply ReferentToMap_run|].
  rewrite referent_map_inserts. cbv zeta.
  destruct model as [[u|] [a|]]; cbn [ToolModelReferent.UIHref ToolModelReferent.APIHref];
    repeat (apply map_Forall_insert_2; [reflexivity|]); apply map_Forall_empty.
Qed.

(** ** Read, run again *)

Lemma ResourceData_eq d1 d2 :
  rd_Id d1 = rd_Id d2 -> rd_values d1 = rd_values d2 ->
  rd_parameters d1 = rd_parameters d2 -> rd_changed d1 = rd_changed d2 ->
  rd_written d1 = rd_written d2 -> d1 = d2.
Proof. destruct d1, d2. cbn. by intros -> -> -> -> ->. Qed.

Lemma write_all_twice writes d :
  write_all writes (write_all writes d) = write_all writes d.
Proof.
  destruct (write_all_plan writes d) as (Hv & Hp & Hc).
  destruct (write_all_plan writes (write_all writes d)) as (Hv' & Hp' & Hc').
  apply ResourceData_eq; try congruence.
  - by rewrite !write_all_Id.
  - apply map_eq. intros key.
    destruct (decide (key ∈ (fst <$> writes))) as [Hin|Hout].
    + by apply write_all_lookup_same.
    + by rewrite write_all_lookup_other.
Qed.

(** X13. A second Read that receives the same answer from [GetToolByID] as the
    first returns the same result and leaves [d] as the first Read left
    it. *)
Theorem Read_again_changes_nothing meta client s
    toolchainID toolID toolchainID' toolID'
    (answer : sdk_result ToolchainTool.t) remote1 remote2 :
  session_CdToolchainV2 meta = inr client ->
  id_parts X (st_d s) = Some (toolchainID, toolID) ->
  GetToolByIDWithContext client
    (GetToolByIDOptions.mk (Some toolchainID) (Some toolID)) (st_remote s)
    = (answer, remote1) ->
  let first := resourceIBMCdToolchainToolSecuritycomplianceRead meta s in
  id_parts X (st_d (snd first)) = Some (toolchainID', toolID') ->
  GetToolByIDWithContext client
    (GetToolByIDOptions.mk (Some toolchainID') (Some toolID')) (st_remote (snd first))
    = (answer, remote2) ->
  let second := resourceIBMCdToolchainToolSecuritycomplianceRead meta (snd first) in
  fst second = fst first /\ st_d (snd second) = st_d (snd first).
Proof.
  intros Hc Hid Hcall. cbv zeta. intros Hid' Hcall'.
  rewrite (Read_run _ _ (snd _) _ _ Hc Hid'). cbv zeta. rewrite Hcall'. cbn [fst snd].
  revert Hid' Hcall'.
  rewrite (Read_run _ _ _ _ _ Hc Hid). cbv zeta. rewrite Hcall. cbn [fst snd].
  destruct answer as [tool resp|resp err].
  - destruct (Read_setFields_state_independent (X:=X) tool) as (r & ws & H).
    rewrite !H. cbn [fst snd with_d st_d after_call]. intros _ _.
    split; [done|]. apply write_all_twice.
  - destruct (is_not_found resp); cbn; intros _ _; done.
Qed.

(** X14. When Read returns no diagnostic, the client was there, the resource
    ID separated into its two parts, and [GetToolByID] was asked for them;
    and either it answered with an error whose response is not nil and has
    status 404, and Read only emptied the resource ID, or it answered with
    a tool, and every attribute that the schema declares has a value in
    [d] while the resource ID is the one Read found. *)
Theorem Read_without_diagnostics_sets_every_attribute meta s :
  let ran := resourceIBMCdToolchainToolSecuritycomplianceRead meta s in
  fst ran = Returned [] ->
  exists client toolchainID toolID,
    session_CdToolchainV2 meta = inr client /\
    id_parts X (st_d s) = Some (toolchainID, toolID) /\
    match fst (GetToolByIDWithContext client
                 (GetToolByIDOptions.mk (Some toolchainID) (Some toolID))
                 (st_remote s)) with
    | SdkErr response err =>
      (exists r, response = Some r /\ DetailedResponse.StatusCode r = 404%Z) /\
      st_d (snd ran) = rd_with_Id "" (st_d s)
    | SdkOk tool _ =>
      declared_attributes ⊆ dom (rd_written (st_d (snd ran))) /\
      rd_Id (st_d (snd ran)) = rd_Id (st_d s)
    end.
Proof.
  cbv zeta.
  destruct (Read_paths meta s) as [(r & Hr & ->)|(client & tc & tl & Hc & Hid & H)].
  { apply before_call_one_error in Hr as [_ Hr]. done. }
  cbv zeta in H. intros Hnil. exists client, tc, tl. split; [done|]. split; [done|].
  revert Hnil.
  destruct (GetToolByIDWithContext client _ (st_remote s)) as [[tool resp|resp err] remote'];
    cbn [fst snd] in H |- *.
  - rewrite H. destruct (ToolchainTool.Referent tool) as [referent|] eqn:Href.
    + rewrite (Read_setFields_with_referent _ _ _ Href), set_all_run. cbn [fst snd].
      intros Hnil. unfold refusal in Hnil.
      destruct (first_refused X (mirrored_fields X tool referent)) as [[k e]|] eqn:E;
        [done|].
      rewrite (accepted_all _ E), declared_attributes_eq. split.
      * intros key Hkey. apply elem_of_dom.
        assert (Hin : key ∈ (fst <$> mirrored_fields X tool referent)).
        { cbn. set_solver. }
        apply list_elem_of_fmap in Hin as ([k v] & -> & Hin).
        exists v. cbn [with_d st_d fst]. apply write_all_lookup; [compute_done|done].
      * cbn [with_d st_d]. apply write_all_Id.
    + intros Hnil. exfalso. revert Hnil. unfold Read_setFields.
      repeat (rewrite set_or_return_run;
              match goal with |- context [Set_error X ?k ?v] =>
                destruct (Set_error X k v) end; [done|]).
      unfold bind. rewrite Href. done.
  - destruct resp as [r|]; cbn [is_not_found] in H.
    + destruct (Z.eqb_spec (DetailedResponse.StatusCode r) 404) as [E|E];
        rewrite H; cbn [fst snd]; [|done].
      intros _. split; [by exists r|done].
    + rewrite H. done.
Qed.

(** Read returns no diagnostic only after its [GetToolByID] call. *)
Lemma Read_without_diagnostics_has_called meta s :
  fst (resourceIBMCdToolchainToolSecuritycomplianceRead meta s) = Returned [] ->
  exists opts,
    st_calls (snd (resourceIBMCdToolchainToolSecuritycomplianceRead meta s))
    = (st_calls s ++ [CallGetToolByID opts])%list.
Proof.
  destruct (Read_paths meta s) as [(r & Hr & ->)|(client & tc & tl & _ & _ & H)].
  { apply before_call_one_error in Hr as [_ Hr]. done. }
  cbv zeta in H. intros _. eexists.
  destruct (GetToolByIDWithContext client _ (st_remote s)) as [[tool resp|resp err] remote'];
    cbn [fst snd] in H.
  - rewrite H. destruct (Read_setFields_state_independent (X:=X) tool) as (r & ws & ->).
    reflexivity.
  - destruct (is_not_found resp); rewrite H; reflexivity.
Qed.

(** X15. Create returns no diagnostic only when the client was there,
    [CreateTool] succeeded, and the tool was then asked for with
    [GetToolByID]: these are its two SDK calls. *)
Theorem Create_reports_success_only_after_CreateTool meta s :
  let ran := resourceIBMCdToolchainToolSecuritycomplianceCreate meta s in
  fst ran = Returned [] ->
  exists client post response opts,
    session_CdToolchainV2 meta = inr client /\
    fst (CreateToolWithContext client (expected_CreateToolOptions X (st_d s))
           (st_remote s)) = SdkOk post response /\
    st_calls (snd ran)
      = (st_calls s ++
         [ CallCreateTool (expected_CreateToolOptions X (st_d s));
           CallGetToolByID opts ])%list.
Proof.
  cbv zeta.
  destruct (session_CdToolchainV2 meta) as [e|client] eqn:Hc.
  { by rewrite (Create_stops_without_client _ _ _ Hc). }
  rewrite (Create_run _ _ _ Hc). cbv zeta.
  destruct (CreateToolWithContext client _ (st_remote s)) as [[post resp|resp err] remote']
    eqn:Ecall; cbn [fst snd]; [|done].
  destruct (ToolchainToolPost.ID post) as [toolID|]; [|done].
  intros Hnil. destruct (Read_without_diagnostics_has_called _ _ Hnil) as (opts & ->).
  exists client, post, resp, opts. split; [done|]. split; [by rewrite Ecall|].
  cbn. by rewrite <- app_assoc.
Qed.

(** X16. Update returns no diagnostic only when [toolchain_id] is unchanged;
    then its last SDK call is the [GetToolByID] of Read, preceded by one
    successful [UpdateTool] when [parameters] or [name] has changed and by
    nothing otherwise. *)
Theorem Update_reports_success_only_after_its_calls meta s :
  let ran := resourceIBMCdToolchainToolSecuritycomplianceUpdate meta s in
  fst ran = Returned [] ->
  ("toolchain_id" ∉ rd_changed (st_d s)) /\
  exists opts,
    if update_has_change (st_d s)
    then exists client patch result response,
           session_CdToolchainV2 meta = inr client /\
           fst (UpdateToolWithContext client patch (st_remote s)) = SdkOk result response /\
           st_calls (snd ran)
             = (st_calls s ++ [ CallUpdateTool patch; CallGetToolByID opts ])%list
    else st_calls (snd ran) = (st_calls s ++ [ CallGetToolByID opts ])%list.
Proof.
  cbv zeta.
  destruct (before_call X meta (st_d s)) as [r|[[client tc] tl]] eqn:E.
  { rewrite (Update_stops_before_call _ _ _ E).
    apply before_call_one_error in E as [_ Hr]. done. }
  apply before_call_goes in E as [Hc Hid].
  rewrite (Update_run _ _ _ _ _ Hc Hid). cbv zeta.
  case_bool_decide as Htc; [done|].
  destruct (update_has_change (st_d s)).
  - destruct (UpdateToolWithContext client _ (st_remote s)) as [[res resp|resp err] remote']
      eqn:Ecall; cbn [fst snd]; [|done].
    intros Hnil. split; [done|].
    destruct (Read_without_diagnostics_has_called _ _ Hnil) as (opts & ->).
    exists opts. eexists client, _, res, resp. split; [done|].
    split; [by rewrite Ecall|]. cbn. by rewrite <- app_assoc.
  - intros Hnil. split; [done|].
    destruct (Read_without_diagnostics_has_called _ _ Hnil) as (opts & ->).
    by exists opts.
Qed.

End MoreHandlerProperties.

(** * The further properties at work on the small instance *)

Lemma session_error_is_returned_unchanged_witness :
  session_CdToolchainV2 no_client = inl "no credentials" /\
  resourceIBMCdToolchainToolSecuritycomplianceCreate no_client fresh_state
    = (Returned (diag_FromErr "no credentials"), fresh_state) /\
  resourceIBMCdToolchainToolSecuritycomplianceRead no_client fresh_state
    = (Returned (diag_FromErr "no credentials"), fresh_state) /\
  resourceIBMCdToolchainToolSecuritycomplianceUpdate no_client fresh_state
    = (Returned (diag_FromErr "no credentials"), fresh_state) /\
  resourceIBMCdToolchainToolSecuritycomplianceDelete no_client fresh_state
    = (Returned (diag_FromErr "no credentials"), fresh_state).
Proof.
  split; [reflexivity|].
  exact (session_error_is_returned_unchanged no_client fresh_state "no credentials" eq_refl).
Defined.

Lemma SepIdParts_error_is_returned_unchanged_witness :
  session_CdToolchainV2 (demo_meta good_client) = inr good_client /\
  SepIdParts demoX (rd_Id (st_d unparsed_state)) "/"
    = inl "The given id 9603dcd4 does not contain /" /\
  resourceIBMCdToolchainToolSecuritycomplianceUpdate (demo_meta good_client) unparsed_state
    = (Returned (diag_FromErr "The given id 9603dcd4 does not contain /"), unparsed_state).
Proof.
  do 2 (split; [reflexivity|]).
  exact (proj1 (proj2 (SepIdParts_error_is_returned_unchanged (demo_meta good_client)
                         good_client unparsed_state _ eq_refl eq_refl))).
Defined.

Lemma fewer_than_two_parts_panics_witness :
  let meta : ClientSession (Remote one_part_X) := mkSession nat (inr good_client) in
  let s : St one_part_X := @mkSt one_part_X (demo_d demo_id ∅) 1%nat [] [] in
  session_CdToolchainV2 meta = inr good_client /\
  SepIdParts one_part_X (rd_Id (st_d s)) "/" = inr [ demo_id ] /\
  (length [ demo_id ] < 2)%nat /\
  resourceIBMCdToolchainToolSecuritycomplianceDelete meta s
    = (Panicked "index out of range", s).
Proof.
  cbv zeta. do 2 (split; [reflexivity|]). split; [cbn; lia|].
  refine (proj2 (proj2 (fewer_than_two_parts_panics (X:=one_part_X)
                          (mkSession nat (inr good_client)) good_client
                          (@mkSt one_part_X (demo_d demo_id ∅) 1%nat [] [])
                          [ demo_id ] eq_refl eq_refl _))).
  cbn. lia.
Defined.

Lemma Create_failure_leaves_d_witness :
  let ran :=
    resourceIBMCdToolchainToolSecuritycomplianceCreate (demo_meta (failing_client 500))
      fresh_state in
  session_CdToolchainV2 (demo_meta (failing_client 500)) = inr (failing_client 500) /\
  CreateToolWithContext (failing_client 500)
    (expected_CreateToolOptions demoX (st_d fresh_state)) (st_remote fresh_state)
    = (SdkErr (Some (ok_response 500)) "request failed", 1%nat) /\
  st_d (snd ran) = st_d fresh_state /\
  st_calls (snd ran)
    = [CallCreateTool (expected_CreateToolOptions demoX (st_d fresh_state))].
Proof.
  cbv zeta. do 2 (split; [reflexivity|]).
  destruct (Create_failure_leaves_d (demo_meta (failing_client 500)) (failing_client 500)
              fresh_state (Some (ok_response 500)) "request failed" 1%nat
              eq_refl eq_refl) as (_ & Hd & Hcalls & _).
  split; [exact Hd|exact Hcalls].
Defined.

Lemma Create_reads_back_the_created_tool_witness :
  let ran :=
    resourceIBMCdToolchainToolSecuritycomplianceCreate (demo_meta good_client)
      fresh_state in
  session_CdToolchainV2 (demo_meta good_client) = inr good_client /\
  CreateToolWithContext good_client
    (expected_CreateToolOptions demoX (st_d fresh_state)) (st_remote fresh_state)
    = (SdkOk (ToolchainToolPost.mk (Some demo_tool_id)) (ok_response 201), 2%nat) /\
  id_parts demoX (rd_with_Id demo_id (st_d fresh_state))
    = Some (demo_toolchain, demo_tool_id) /\
  st_calls (snd ran)
    = [ CallCreateTool (expected_CreateToolOptions demoX (st_d fresh_state));
        CallGetToolByID
          (GetToolByIDOptions.mk (Some demo_toolchain) (Some demo_tool_id)) ].
Proof.
  cbv zeta. do 3 (split; [reflexivity|]).
  exact (proj1 (Create_reads_back_the_created_tool (demo_meta good_client) good_client
                  fresh_state (ToolchainToolPost.mk (Some demo_tool_id))
                  (ok_response 201) 2%nat demo_tool_id
                  eq_refl eq_refl eq_refl eq_refl)).
Defined.

Lemma Update_without_changes_is_Read_witness :
  ("toolchain_id" ∉ rd_changed (st_d (known_state ∅))) /\
  ("parameters" ∉ rd_changed (st_d (known_state ∅))) /\
  ("name" ∉ rd_changed (st_d (known_state ∅))) /\
  resourceIBMCdToolchainToolSecuritycomplianceUpdate (demo_meta good_client) (known_state ∅)
  = resourceIBMCdToolchainToolSecuritycomplianceRead (demo_meta good_client) (known_state ∅).
Proof.
  assert (H : forall key : string, key ∉ rd_changed (st_d (known_state ∅))).
  { intros key. apply not_elem_of_empty. }
  do 3 (split; [apply H|]).
  exact (Update_without_changes_is_Read (demo_meta good_client) (known_state ∅)
           (H _) (H _) (H _)).
Defined.

Lemma Update_sends_the_changed_parts_witness :
  let s := known_state {[ "name" ]} in
  let ran := resourceIBMCdToolchainToolSecuritycomplianceUpdate (demo_meta good_client) s in
  session_CdToolchainV2 (demo_meta good_client) = inr good_client /\
  id_parts demoX (st_d s) = Some (demo_toolchain, demo_tool_id) /\
  ("toolchain_id" ∉ rd_changed (st_d s)) /\
  ("parameters" ∈ rd_changed (st_d s) \/ "name" ∈ rd_changed (st_d s)) /\
  exists rest,
    st_calls (snd ran)
    = (st_calls s ++
       CallUpdateTool
         (UpdateToolOptions.mk (Some demo_toolchain) (Some demo_tool_id)
            (AsPatch demoX (expected_patch demoX (st_d s)))) :: rest)%list.
Proof.
  cbv zeta.
  assert (Hout : "toolchain_id" ∉ rd_changed (st_d (known_state {[ "name" ]}))).
  { apply (bool_decide_unpack _). vm_compute. exact I. }
  assert (Hin : "parameters" ∈ rd_changed (st_d (known_state {[ "name" ]})) \/
                "name" ∈ rd_changed (st_d (known_state {[ "name" ]}))).
  { right. apply (bool_decide_unpack _). vm_compute. exact I. }
  do 2 (split; [reflexivity|]). split; [exact Hout|]. split; [exact Hin|].
  exact (proj1 (proj2 (proj2
    (Update_sends_the_changed_parts (demo_meta good_client) good_client
       (known_state {[ "name" ]}) demo_toolchain demo_tool_id
       eq_refl eq_refl Hout Hin)))).
Defined.

Lemma Read_again_changes_nothing_witness :
  let first :=
    resourceIBMCdToolchainToolSecuritycomplianceRead (demo_meta good_client)
      (known_state ∅) in
  let second :=
    resourceIBMCdToolchainToolSecuritycomplianceRead (demo_meta good_client) (snd first) in
  (session_CdToolchainV2 (demo_meta good_client) = inr good_client /\
   id_parts demoX (st_d (known_state ∅)) = Some (demo_toolchain, demo_tool_id) /\
   GetToolByIDWithContext good_client
     (GetToolByIDOptions.mk (Some demo_toolchain) (Some demo_tool_id))
     (st_remote (known_state ∅))
     = (SdkOk (demo_tool (Some demo_referent)) (ok_response 200), 1%nat) /\
   id_parts demoX (st_d (snd first)) = Some (demo_toolchain, demo_tool_id) /\
   GetToolByIDWithContext good_client
     (GetToolByIDOptions.mk (Some demo_toolchain) (Some demo_tool_id))
     (st_remote (snd first))
     = (SdkOk (demo_tool (Some demo_referent)) (ok_response 200), 1%nat)) /\
  fst second = fst first /\ st_d (snd second) = st_d (snd first).
Proof.
  cbv zeta. split; [repeat split; reflexivity|].
  exact (Read_again_changes_nothing (demo_meta good_client) good_client (known_state ∅)
           demo_toolchain demo_tool_id demo_toolchain demo_tool_id
           (SdkOk (demo_tool (Some demo_referent)) (ok_response 200)) 1%nat 1%nat
           eq_refl eq_refl eq_refl eq_refl eq_refl).
Defined.

Lemma Read_without_diagnostics_sets_every_attribute_witness :
  let found := known_state ∅ in
  let gone := @mkSt demoX (demo_d demo_id ∅) 0%nat [] [] in
  let ran := resourceIBMCdToolchainToolSecuritycomplianceRead (demo_meta counting_client) in
  (fst (ran found) = Returned [] /\ fst (ran gone) = Returned []) /\
  (exists client toolchainID toolID,
     session_CdToolchainV2 (demo_meta counting_client) = inr client /\
     id_parts demoX (st_d found) = Some (toolchainID, toolID) /\
     match fst (GetToolByIDWithContext client
                  (GetToolByIDOptions.mk (Some toolchainID) (Some toolID))
                  (st_remote found)) with
     | SdkErr response err =>
       (exists r, response = Some r /\ DetailedResponse.StatusCode r = 404%Z) /\
       st_d (snd (ran found)) = rd_with_Id "" (st_d found)
     | SdkOk tool _ =>
       declared_attributes ⊆ dom (rd_written (st_d (snd (ran found)))) /\
       rd_Id (st_d (snd (ran found))) = rd_Id (st_d found)
     end) /\
  (exists client toolchainID toolID,
     session_CdToolchainV2 (demo_meta counting_client) = inr client /\
     id_parts demoX (st_d gone) = Some (toolchainID, toolID) /\
     match fst (GetToolByIDWithContext client
                  (GetToolByIDOptions.mk (Some toolchainID) (Some toolID))
                  (st_remote gone)) with
     | SdkErr response err =>
       (exists r, response = Some r /\ DetailedResponse.StatusCode r = 404%Z) /\
       st_d (snd (ran gone)) = rd_with_Id "" (st_d gone)
     | SdkOk tool _ =>
       declared_attributes ⊆ dom (rd_written (st_d (snd (ran gone)))) /\
       rd_Id (st_d (snd (ran gone))) = rd_Id (st_d gone)
     end).
Proof.
  cbv zeta. split; [split; reflexivity|]. split.
  - exact (Read_without_diagnostics_sets_every_attribute (demo_meta counting_client)
             (known_state ∅) eq_refl).
  - exact (Read_without_diagnostics_sets_every_attribute (demo_meta counting_client)
             (@mkSt demoX (demo_d demo_id ∅) 0%nat [] []) eq_refl).
Defined.

Lemma Create_reports_success_only_after_CreateTool_witness :
  let ran :=
    resourceIBMCdToolchainToolSecuritycomplianceCreate (demo_meta good_client)
      fresh_state in
  fst ran = Returned [] /\
  exists client post response opts,
    session_CdToolchainV2 (demo_meta good_client) = inr client /\
    fst (CreateToolWithContext client
           (expected_CreateToolOptions demoX (st_d fresh_state))
           (st_remote fresh_state)) = SdkOk post response /\
    st_calls (snd ran)
      = (st_calls fresh_state ++
         [ CallCreateTool (expected_CreateToolOptions demoX (st_d fresh_state));
           CallGetToolByID opts ])%list.
Proof.
  cbv zeta. split; [reflexivity|].
  exact (Create_reports_success_only_after_CreateTool (demo_meta good_client)
           fresh_state eq_refl).
Defined.

Lemma Update_reports_success_only_after_its_calls_witness :
  let s := known_state {[ "name" ]} in
  let ran := resourceIBMCdToolchainToolSecuritycomplianceUpdate (demo_meta good_client) s in
  fst ran = Returned [] /\
  ("toolchain_id" ∉ rd_changed (st_d s)).
Proof.
  cbv zeta. split; [reflexivity|].
  exact (proj1 (Update_reports_success_only_after_its_calls (demo_meta good_client)
                  (known_state {[ "name" ]}) eq_refl)).
Defined.

(** * Further properties of the validator table *)

Lemma conforms_all_chars (ps : list (ascii -> bool)) (q : ascii -> bool) (s : string) :
  Forall (fun p => forall c, p c = true -> q c = true) ps ->
  conforms ps s = true -> all_chars q s = true.
Proof.
  intros Hall. revert s. induction Hall as [|p ps Hp _ IH]; intros [|c rest]; cbn; try done.
  intros H. apply andb_prop in H as [Hc Hrest]. by rewrite (Hp c Hc), (IH rest Hrest).
Qed.

Lemma all_chars_excludes (q : ascii -> bool) (sep : ascii) (s : string) :
  q sep = false -> all_chars q s = true -> occurs sep s = false.
Proof.
  intros Hsep. induction s as [|c rest IH]; cbn; [done|].
  intros H. apply andb_prop in H as [Hc Hrest]. rewrite (IH Hrest), orb_false_r.
  destruct (Ascii.eqb_spec c sep) as [->|]; [congruence|done].
Qed.

Lemma uuid_v4_positions_hex_or_hyphen :
  Forall (fun p => forall c, p c = true -> hex_or_hyphen c = true) uuid_v4_positions.
Proof.
  assert (Hhex : forall c, is_hex c = true -> hex_or_hyphen c = true).
  { intros c H. unfold hex_or_hyphen. by rewrite H. }
  assert (Hhyphen : forall c, is_char "-" c = true -> hex_or_hyphen c = true).
  { intros c H. unfold hex_or_hyphen. rewrite H. apply orb_true_r. }
  assert (Hfour : forall c, is_char "4" c = true -> hex_or_hyphen c = true).
  { intros c H. apply Ascii.eqb_eq in H as <-. reflexivity. }
  assert (Hvariant : forall c, is_variant c = true -> hex_or_hyphen c = true).
  { intros c. destruct c as [[] [] [] [] [] [] [] []]; vm_compute; done. }
  unfold uuid_v4_positions. cbn [repeat app].
  repeat (apply Forall_cons; split;
          [ first [ exact Hhex | exact Hhyphen | exact Hfour | exact Hvariant ] |]).
  apply Forall_nil_2.
Qed.

(** X17. Every value that the pattern of [toolchain_id] matches has exactly the
    36 characters that the length bounds of the entry ask for, so the
    bounds reject no value the pattern matches; and it is made of
    hexadecimal digits and hyphens, so it holds no [/], the character that
    separates the parts of the resource ID. *)
Theorem toolchain_id_pattern_fixes_length_and_alphabet
    (entry : ValidateSchema) (value : string) :
  validator_entry "toolchain_id" = Some entry ->
  MatchString (vs_Regexp entry) value = true ->
  (vs_MinValueLength entry <= Z.of_nat (String.length value)
     <= vs_MaxValueLength entry)%Z /\
  all_chars hex_or_hyphen value = true /\
  occurs "/" value = false.
Proof.
  intros Hentry. vm_compute in Hentry. injection Hentry as <-.
  cbn [vs_Regexp vs_MinValueLength vs_MaxValueLength].
  rewrite MatchString_toolchain_id. intros H.
  assert (Hall : all_chars hex_or_hyphen value = true).
  { by apply (conforms_all_chars _ _ _ uuid_v4_positions_hex_or_hyphen). }
  split; [|split; [done|]].
  - rewrite (conforms_length _ _ H). cbn. lia.
  - by apply (all_chars_excludes hex_or_hyphen).
Qed.

Lemma toolchain_id_pattern_fixes_length_and_alphabet_witness :
  validator_entry "toolchain_id"
    = Some (mkValidateSchema "toolchain_id" ValidateRegexpLen ValidateTypeString true false
         "^[a-fA-F0-9]{8}-[a-fA-F0-9]{4}-4[a-fA-F0-9]{3}-[89abAB][a-fA-F0-9]{3}-[a-fA-F0-9]{12}$"
         36 36) /\
  MatchString
    "^[a-fA-F0-9]{8}-[a-fA-F0-9]{4}-4[a-fA-F0-9]{3}-[89abAB][a-fA-F0-9]{3}-[a-fA-F0-9]{12}$"
    demo_toolchain = true /\
  (36 <= Z.of_nat (String.length demo_toolchain) <= 36)%Z /\
  all_chars hex_or_hyphen demo_toolchain = true /\
  occurs "/" demo_toolchain = false.
Proof.
  assert (H : MatchString
    "^[a-fA-F0-9]{8}-[a-fA-F0-9]{4}-4[a-fA-F0-9]{3}-[89abAB][a-fA-F0-9]{3}-[a-fA-F0-9]{12}$"
    demo_toolchain = true) by (vm_compute; reflexivity).
  split; [reflexivity|]. split; [exact H|].
  exact (toolchain_id_pattern_fixes_length_and_alphabet
           (mkValidateSchema "toolchain_id" ValidateRegexpLen ValidateTypeString true false
         "^[a-fA-F0-9]{8}-[a-fA-F0-9]{4}-4[a-fA-F0-9]{3}-[89abAB][a-fA-F0-9]{3}-[a-fA-F0-9]{12}$"
              36 36)
           demo_toolchain eq_refl H).
Defined.

(** X18. The validator table and the schema agree: each entry of the table
    belongs to an attribute of the schema that is a string, is checked by
    [validate.InvokeValidator] under the resource name of the table and the
    identifier of the entry, and is required or optional as the entry says;
    and each attribute of the schema that has a [ValidateFunc] has its
    entry in the table. *)
Theorem validator_table_agrees_with_schema :
  Forall (fun entry =>
            exists attribute,
              resource_Schema ResourceIBMCdToolchainToolSecuritycompliance
                !! vs_Identifier entry = Some attribute /\
              agrees_with_entry attribute entry = true)
    (rv_Schema ResourceIBMCdToolchainToolSecuritycomplianceValidator) /\
  map_Forall (fun key attribute =>
                schema_ValidateFunc attribute = None \/
                exists entry, validator_entry key = Some entry /\
                              agrees_with_entry attribute entry = true)
    (resource_Schema ResourceIBMCdToolchainToolSecuritycompliance).
Proof.
  split.
  - repeat (apply Forall_cons; split;
            [eexists; split; [vm_compute; reflexivity|vm_compute; reflexivity]|]).
    apply Forall_nil_2.
  - unfold ResourceIBMCdToolchainToolSecuritycompliance. cbn [resource_Schema].
    repeat (apply map_Forall_insert_2;
            [first [ left; reflexivity
                   | right; eexists; split; vm_compute; reflexivity ]|]).
    apply map_Forall_empty.
Qed.

(** X19. The pattern of [name] matches a value exactly when the value is
    not empty and each of its bytes is either 0x80 or above, as the bytes
    of a character that is not ASCII are, or one of [a-zA-Z0-9-._ ] and
    the space.  The empty string, which is no shorter than the minimum
    length of the entry, is not matched. *)
Theorem name_pattern_matches_nonempty_names
    (entry : ValidateSchema) (value : string) :
  validator_entry "name" = Some entry ->
  (MatchString (vs_Regexp entry) value = true <->
     value <> "" /\ all_chars name_char value = true) /\
  (vs_MinValueLength entry <= Z.of_nat (String.length ""))%Z /\
  MatchString (vs_Regexp entry) "" = false.
Proof.
  intros Hentry. vm_compute in Hentry. injection Hentry as <-.
  cbn [vs_Regexp vs_MinValueLength]. rewrite !MatchString_name.
  split; [|split; [cbn; lia|reflexivity]].
  destruct value as [|c rest]; cbn [at_end negb andb]; split.
  - done.
  - by intros [H _].
  - done.
  - by intros [_ H].
Qed.

Lemma name_pattern_matches_nonempty_names_witness :
  validator_entry "name"
    = Some (mkValidateSchema "name" ValidateRegexpLen ValidateTypeString false true
              "^([^\x00-\x7F]|[a-zA-Z0-9-._ ])+$" 0 128) /\
  (MatchString "^([^\x00-\x7F]|[a-zA-Z0-9-._ ])+$" "my-security compliance_1.0" = true <->
     "my-security compliance_1.0" <> "" /\
     all_chars name_char "my-security compliance_1.0" = true) /\
  (0 <= Z.of_nat (String.length ""))%Z /\
  MatchString "^([^\x00-\x7F]|[a-zA-Z0-9-._ ])+$" "" = false.
Proof.
  split; [reflexivity|].
  exact (name_pattern_matches_nonempty_names
           (mkValidateSchema "name" ValidateRegexpLen ValidateTypeString false true
              "^([^\x00-\x7F]|[a-zA-Z0-9-._ ])+$" 0 128)
           "my-security compliance_1.0" eq_refl).
Defined.
